(** * ia-download / cc-download: resumable parallel download engine

    A shallow embedding of the two scripts of the repository,
    [cc-download.py] (Common Crawl, resumable byte-range transfers) and
    [ia-download.py] (Internet Archive, single authenticated GET with an
    a-priori MD5), and the properties of the transfer, the result loop and
    the circuit breaker.

    Conventions of the embedding.
    - Python [int] is [Z]; loop counters that start at 0 and only grow are
      [nat].
    - A Python function that may raise returns [Py.result]; [try/except]
      and [try/finally] are written out with a match on it.
    - The file system is a finite map from path strings to nodes (a file
      with its bytes, or a directory); the functions take the file system
      and return the new one. Two paths name the same node when they are
      the same string. A file is created only in a directory that is
      there: the working directory (a path without a directory part), the
      root, or a directory of the map; cc-download.py opens names of the
      working directory only.
    - The network, the clock and the process id are inputs: what [urlopen]
      or [session.get] answers on each call, the seconds elapsed, the pid.
    - A digest object is the bytes fed to it so far. The transfers take the
      hash function as a parameter [md5_hex], so that what is proved of
      them holds of any; [MD5.hexdigest] is [hashlib.md5] itself and is used
      wherever a concrete run is evaluated.
    - The listing cache of ia-download.py is a map from keys to the lists
      of files pickled under them.
    - Diagnostics printed on stderr are not part of the model. *)

From Stdlib Require Import ZArith List Ascii String Lia Decimal DecimalString Sorted.
From Stdlib.Strings Require Import Byte.
From stdpp Require Import gmap strings list.

Local Open Scope string_scope.
Local Open Scope nat_scope.
Local Open Scope list_scope.

(** ** Python primitives used by the scripts *)

Module Py.

(** An exception object: its class name and [str(err)]. *)
Record exception := Exc { exc_class : string; exc_str : string }.

Inductive result (A : Type) : Type :=
| Return (a : A)
| Raise (e : exception).
Arguments Return {A} a.
Arguments Raise {A} e.

Definition bind {A B} (r : result A) (k : A -> result B) : result B :=
  match r with
  | Return a => k a
  | Raise e => Raise e
  end.

Definition raises {A} (r : result A) : bool :=
  match r with Raise _ => true | Return _ => false end.

(** [str.isspace] on the code points below 256 (header values are decoded
    as Latin-1, one character per byte). *)
Definition isspace (c : ascii) : bool :=
  let n := nat_of_ascii c in
  (Nat.leb 9 n && Nat.leb n 13) || (Nat.leb 28 n && Nat.leb n 32)
  || Nat.eqb n 133 || Nat.eqb n 160.

Definition digit_value (c : ascii) : option Z :=
  let n := nat_of_ascii c in
  if Nat.leb 48 n && Nat.leb n 57 then Some (Z.of_nat (n - 48)) else None.

Fixpoint lstrip (s : string) : string :=
  match s with
  | String c r => if isspace c then lstrip r else s
  | EmptyString => EmptyString
  end.

Fixpoint rstrip (s : string) : string :=
  match s with
  | String c r =>
      match rstrip r with
      | EmptyString => if isspace c then EmptyString else String c EmptyString
      | r' => String c r'
      end
  | EmptyString => EmptyString
  end.

(** Digits of a decimal literal; a single underscore may stand between two
    digits. [prev] tells whether the previous character was a digit. *)
Fixpoint int_digits (s : string) (acc : Z) (prev : bool) : option Z :=
  match s with
  | EmptyString => if prev then Some acc else None
  | String c r =>
      match digit_value c with
      | Some d => int_digits r (10 * acc + d)%Z true
      | None =>
          if Ascii.eqb c "_" && prev then int_digits r acc false else None
      end
  end.

Definition int_literal (s : string) : option Z :=
  match rstrip (lstrip s) with
  | String "+" r => int_digits r 0%Z false
  | String "-" r => Z.opp <$> int_digits r 0%Z false
  | t => int_digits t 0%Z false
  end.

(** [int(s)]: the value, or [ValueError]. *)
Definition int (s : string) : result Z :=
  match int_literal s with
  | Some z => Return z
  | None =>
      Raise (Exc "ValueError"
               ("invalid literal for int() with base 10: '" +:+ s +:+ "'"))
  end.

(** [str(n)] and the f-string rendering of an [int]. *)
Definition str_int (z : Z) : string := NilZero.string_of_int (Z.to_int z).

(** The f-string rendering of an [Optional[int]]. *)
Definition str_opt_int (o : option Z) : string :=
  match o with
  | Some z => str_int z
  | None => "None"
  end.

(** [s.split('/')]. *)
Fixpoint split_slash (s : string) : list string :=
  match s with
  | EmptyString => [EmptyString]
  | String c r =>
      if Ascii.eqb c "/" then EmptyString :: split_slash r
      else
        match split_slash r with
        | p :: ps => String c p :: ps
        | [] => [String c EmptyString]
        end
  end.

(** *** [os.path] (posixpath) *)

(** [p[:i], p[i:]] for [i = p.rfind('/') + 1]. *)
Fixpoint split_at_last_slash (p : string) : string * string :=
  match p with
  | EmptyString => (EmptyString, EmptyString)
  | String c r =>
      match split_at_last_slash r with
      | (EmptyString, t) =>
          if Ascii.eqb c "/" then (String c EmptyString, t)
          else (EmptyString, String c t)
      | (h, t) => (String c h, t)
      end
  end.

Fixpoint all_slashes (s : string) : bool :=
  match s with
  | EmptyString => true
  | String c r => Ascii.eqb c "/" && all_slashes r
  end.

Fixpoint rstrip_slash (s : string) : string :=
  match s with
  | String c r =>
      match rstrip_slash r with
      | EmptyString =>
          if Ascii.eqb c "/" then EmptyString else String c EmptyString
      | r' => String c r'
      end
  | EmptyString => EmptyString
  end.

(** [os.path.split]. *)
Definition path_split (p : string) : string * string :=
  let '(head, tail) := split_at_last_slash p in
  (if all_slashes head then head else rstrip_slash head, tail).

(** [os.path.basename]. *)
Definition basename (p : string) : string := snd (split_at_last_slash p).

Fixpoint ends_with_slash (s : string) : bool :=
  match s with
  | EmptyString => false
  | String c EmptyString => Ascii.eqb c "/"
  | String _ r => ends_with_slash r
  end.

Definition starts_with_slash (s : string) : bool :=
  match s with
  | String c _ => Ascii.eqb c "/"
  | EmptyString => false
  end.

(** [os.path.join(a, b)]. *)
Definition path_join (a b : string) : string :=
  if starts_with_slash b then b
  else
    match a with
    | EmptyString => b
    | _ => if ends_with_slash a then a +:+ b else a +:+ "/" +:+ b
    end.

End Py.

(** [x ← r; k] runs [r] and passes its value on; an exception is passed
    through. *)
#[export] Instance result_bind : MBind Py.result :=
  fun A B k r => Py.bind r k.
#[export] Instance result_ret : MRet Py.result := @Py.Return.

(** ** MD5 (RFC 1321), the function behind [hashlib.md5] *)

Module MD5.

Local Open Scope Z_scope.

Definition mask (x : Z) : Z := x mod 2 ^ 32.

Definition rotl (x : Z) (n : Z) : Z :=
  mask (Z.lor (Z.shiftl x n) (Z.shiftr x (32 - n))).

Definition shifts : list Z :=
  [7; 12; 17; 22; 7; 12; 17; 22; 7; 12; 17; 22; 7; 12; 17; 22;
   5; 9; 14; 20; 5; 9; 14; 20; 5; 9; 14; 20; 5; 9; 14; 20;
   4; 11; 16; 23; 4; 11; 16; 23; 4; 11; 16; 23; 4; 11; 16; 23;
   6; 10; 15; 21; 6; 10; 15; 21; 6; 10; 15; 21; 6; 10; 15; 21].

Definition sines : list Z :=
  [0xd76aa478; 0xe8c7b756; 0x242070db; 0xc1bdceee; 0xf57c0faf; 0x4787c62a;
   0xa8304613; 0xfd469501; 0x698098d8; 0x8b44f7af; 0xffff5bb1; 0x895cd7be;
   0x6b901122; 0xfd987193; 0xa679438e; 0x49b40821; 0xf61e2562; 0xc040b340;
   0x265e5a51; 0xe9b6c7aa; 0xd62f105d; 0x02441453; 0xd8a1e681; 0xe7d3fbc8;
   0x21e1cde6; 0xc33707d6; 0xf4d50d87; 0x455a14ed; 0xa9e3e905; 0xfcefa3f8;
   0x676f02d9; 0x8d2a4c8a; 0xfffa3942; 0x8771f681; 0x6d9d6122; 0xfde5380c;
   0xa4beea44; 0x4bdecfa9; 0xf6bb4b60; 0xbebfbc70; 0x289b7ec6; 0xeaa127fa;
   0xd4ef3085; 0x04881d05; 0xd9d4d039; 0xe6db99e5; 0x1fa27cf8; 0xc4ac5665;
   0xf4292244; 0x432aff97; 0xab9423a7; 0xfc93a039; 0x655b59c3; 0x8f0ccc92;
   0xffeff47d; 0x85845dd1; 0x6fa87e4f; 0xfe2ce6e0; 0xa3014314; 0x4e0811a1;
   0xf7537e82; 0xbd3af235; 0x2ad7d2bb; 0xeb86d391].

(** The message with its padding: a 1 bit, zeros up to 56 modulo 64 bytes,
    the bit length on 8 bytes, least significant first. *)
Definition le_bytes (n : nat) (x : Z) : list Z :=
  map (λ i, Z.shiftr x (8 * Z.of_nat i) mod 256) (seq 0 n).

Definition padded (message : list Z) : list Z :=
  let len := Z.of_nat (length message) in
  message ++ [128] ++ repeat 0 (Z.to_nat ((55 - len) mod 64))
          ++ le_bytes 8 (8 * len).

Definition word (block : list Z) (g : nat) : Z :=
  nth (4 * g) block 0 + Z.shiftl (nth (4 * g + 1) block 0) 8
  + Z.shiftl (nth (4 * g + 2) block 0) 16
  + Z.shiftl (nth (4 * g + 3) block 0) 24.

Definition step (block : list Z) (state : Z * Z * Z * Z) (i : nat)
  : Z * Z * Z * Z :=
  let '(a, b, c, d) := state in
  let '(f, g) :=
    if (i <? 16)%nat then
      (Z.lor (Z.land b c) (Z.land (Z.lxor b 0xffffffff) d), i)
    else if (i <? 32)%nat then
      (Z.lor (Z.land d b) (Z.land (Z.lxor d 0xffffffff) c), (5 * i + 1) mod 16)%nat
    else if (i <? 48)%nat then
      (Z.lxor (Z.lxor b c) d, (3 * i + 5) mod 16)%nat
    else
      (Z.lxor c (Z.lor b (Z.lxor d 0xffffffff)), (7 * i) mod 16)%nat in
  let f := mask (f + a + nth i sines 0 + word block g) in
  (d, mask (b + rotl f (nth i shifts 0)), b, c).

Definition compress (state : Z * Z * Z * Z) (block : list Z) : Z * Z * Z * Z :=
  let '(a0, b0, c0, d0) := state in
  let '(a, b, c, d) := fold_left (step block) (seq 0 64) state in
  (mask (a0 + a), mask (b0 + b), mask (c0 + c), mask (d0 + d)).

Fixpoint blocks (n : nat) (bytes : list Z) : list (list Z) :=
  match n with
  | O => []
  | S n => take 64 bytes :: blocks n (drop 64 bytes)
  end.

Definition hex_digit (x : Z) : ascii :=
  nth (Z.to_nat x) (list_ascii_of_string "0123456789abcdef") "0"%char.

Definition hex_byte (x : Z) : string :=
  String (hex_digit (x / 16)) (String (hex_digit (x mod 16)) EmptyString).

(** [hashlib.md5(message).hexdigest()]. *)
Definition hexdigest (message : list byte) : string :=
  let bytes := padded (map (λ b, Z.of_N (Byte.to_N b)) message) in
  let '(a, b, c, d) :=
    fold_left compress (blocks (length bytes / 64) bytes)
      (0x67452301, 0xefcdab89, 0x98badcfe, 0x10325476) in
  fold_right (λ x s, hex_byte x +:+ s) EmptyString
    (le_bytes 4 a ++ le_bytes 4 b ++ le_bytes 4 c ++ le_bytes 4 d).

End MD5.

(** ** The file system *)

Module FS.

Inductive node :=
| File (content : list byte)
| Dir.

Abbreviation t := (gmap string node).

Definition os_error (cls msg path : string) : Py.exception :=
  Py.Exc cls (msg +:+ ": '" +:+ path +:+ "'").

(** [os.path.exists]. *)
Definition path_exists (fs : t) (path : string) : bool :=
  match fs !! path with
  | Some _ => true
  | None => false
  end.

(** [open(name, 'a+b')] on a name of the working directory: the file is
    created when absent; its content. *)
Definition open_append (fs : t) (path : string) : Py.result (t * list byte) :=
  match fs !! path with
  | Some (File content) => Py.Return (fs, content)
  | Some Dir => Py.Raise (os_error "IsADirectoryError" "[Errno 21] Is a directory" path)
  | None => Py.Return (<[path := File []]> fs, [])
  end.

(** The node of the directory in which [path] is an entry, the head of
    [os.path.split]: the working directory when [path] has no directory
    part and the root are always there. *)
Definition dir_above (fs : t) (path : string) : option node :=
  let head := (Py.path_split path).1 in
  if Py.all_slashes head then Some Dir else fs !! head.

(** [open(path, 'wb')]: the file is created or truncated; there must be a
    directory to hold it. *)
Definition open_write (fs : t) (path : string) : Py.result t :=
  match dir_above fs path with
  | None =>
      Py.Raise (os_error "FileNotFoundError" "[Errno 2] No such file or directory" path)
  | Some (File _) =>
      Py.Raise (os_error "NotADirectoryError" "[Errno 20] Not a directory" path)
  | Some Dir =>
      match fs !! path with
      | Some Dir =>
          Py.Raise (os_error "IsADirectoryError" "[Errno 21] Is a directory" path)
      | _ => Py.Return (<[path := File []]> fs)
      end
  end.

(** [open(path, 'rb')]: the content of the file. *)
Definition open_read (fs : t) (path : string) : Py.result (list byte) :=
  match fs !! path with
  | Some (File content) => Py.Return content
  | Some Dir => Py.Raise (os_error "IsADirectoryError" "[Errno 21] Is a directory" path)
  | None => Py.Raise (os_error "FileNotFoundError" "[Errno 2] No such file or directory" path)
  end.

(** [os.unlink]. *)
Definition unlink (fs : t) (path : string) : Py.result t :=
  match fs !! path with
  | Some (File _) => Py.Return (delete path fs)
  | Some Dir => Py.Raise (os_error "IsADirectoryError" "[Errno 21] Is a directory" path)
  | None => Py.Raise (os_error "FileNotFoundError" "[Errno 2] No such file or directory" path)
  end.

(** [os.rename(src, dst)]: a file replaces a file; a directory is not
    replaced by a file nor a file by a directory. *)
Definition rename (fs : t) (src dst : string) : Py.result t :=
  match fs !! src, fs !! dst with
  | None, _ => Py.Raise (os_error "FileNotFoundError" "[Errno 2] No such file or directory" src)
  | Some (File _), Some Dir => Py.Raise (os_error "IsADirectoryError" "[Errno 21] Is a directory" src)
  | Some Dir, Some (File _) => Py.Raise (os_error "NotADirectoryError" "[Errno 20] Not a directory" src)
  | Some n, _ => Py.Return (<[dst := n]> (delete src fs))
  end.

(** [os.makedirs(path, exist_ok=True)]. *)
Definition makedirs (fs : t) (path : string) : Py.result t :=
  match fs !! path with
  | Some Dir => Py.Return fs
  | Some (File _) => Py.Raise (os_error "FileExistsError" "[Errno 17] File exists" path)
  | None => Py.Return (<[path := Dir]> fs)
  end.

(** The byte length of the file at [path], 0 when there is none. *)
Definition file_length (fs : t) (path : string) : Z :=
  match fs !! path with
  | Some (File content) => Z.of_nat (length content)
  | _ => 0%Z
  end.

End FS.

(** ** The audit log: one row of the tab-separated output

    [csv.DictWriter] with the columns [timestamp, item, name, path, size,
    time, md5, error]; a key missing from the dict written leaves its cell
    empty, here [None]. *)

Module Csv.

Record row := Row {
  timestamp : string;
  item : string;
  name : string;
  path : option string;
  size : option Z;
  time : option Z;
  md5 : option string;
  error : option string
}.

(** The cell written for a column: [str(value)], and the empty string for
    a key that the dict does not have. *)
Definition cell (value : option string) : string := default "" value.

(** The eight cells of a row as they are written. *)
Definition cells (r : row) : list string :=
  [timestamp r; item r; name r; cell (path r);
   cell (option_map Py.str_int (size r)); cell (option_map Py.str_int (time r));
   cell (md5 r); cell (error r)].

End Csv.

(** ** What the network delivers *)

Module Net.

(** One call of [read] (or one step of [iter_content]): bytes, or an
    exception of the connection. *)
Inductive read_event :=
| Chunk (bytes : list byte)
| ReadFails (e : Py.exception).

End Net.

(** ** cc-download.py *)

Module CC.

Definition BUFSIZE : nat := 2 ^ 16.

Definition CC_HOST : string := "http://data.commoncrawl.org".

Definition MAX_ATTEMPTS : nat := 10.

Inductive DownloadResult :=
| FileDownloaded (path : string) (size : Z) (time : Z) (md5 : string)
| FileExists (path : string)
| DownloadError (path : string) (size : option Z) (time : Z) (error : string).

(** The response of [urlopen]: its headers and what successive
    [fin.read(BUFSIZE)] calls return; past the end of the list [read]
    returns the empty byte string. *)
Record HTTPResponse := {
  headers : gmap string string;
  body : list Net.read_event
}.

Definition getheader (response : HTTPResponse) (name : string) : option string :=
  headers response !! name.

(** [Request(f'{CC_HOST}/{path}', headers={'Range': f'bytes={start}-'})]. *)
Record Request := {
  full_url : string;
  range_start : Z
}.

Definition range_header (request : Request) : string :=
  "bytes=" +:+ Py.str_int (range_start request) +:+ "-".

(** Get whole content length from either a normal or a Range request. *)
Definition get_content_length (response : HTTPResponse) : Py.result Z :=
  let content_range :=
    Py.split_slash (default "" (getheader response "Content-Range")) in
  if bool_decide (length content_range = 2)
     && negb (String.eqb (nth 1 content_range "") "*")
  then Py.int (nth 1 content_range "")
  else
    match getheader response "Content-Length" with
    | Some size => Py.int size
    | None => Py.Raise (Py.Exc "ValueError" "No content size")
    end.

(** The temporary file opened with ['a+b']: its bytes and the position of
    the handle. Reads start at the position; writes go to the end. *)
Record tempfile := {
  data : list byte;
  pos : nat
}.

Definition seek_start (f : tempfile) : tempfile :=
  {| data := data f; pos := 0 |}.

Definition read (f : tempfile) (n : nat) : list byte * tempfile :=
  let chunk := take n (drop (pos f) (data f)) in
  (chunk, {| data := data f; pos := pos f + length chunk |}).

Definition write (f : tempfile) (chunk : list byte) : tempfile :=
  {| data := data f ++ chunk; pos := length (data f ++ chunk) |}.

Definition tell (f : tempfile) : Z := Z.of_nat (pos f).

(** The first loop of [download_warc]: read [ftemp] to its end, feeding the
    digest. Each turn that does not leave the loop consumes at least one
    byte, so [S (length (data f))] turns are enough. *)
Fixpoint read_to_end (turns : nat) (f : tempfile) (digest : list byte)
  : tempfile * list byte :=
  match turns with
  | 0 => (f, digest)
  | S turns =>
      let '(chunk, f) := read f BUFSIZE in
      if bool_decide (length chunk = 0) then (f, digest)
      else read_to_end turns f (digest ++ chunk)
  end.

(** The inner loop: read the response, writing the bytes to the digest and
    the temp file until there is nothing left to read. *)
Fixpoint read_body (fin : list Net.read_event) (f : tempfile) (digest : list byte)
  : option Py.exception * tempfile * list byte :=
  match fin with
  | [] => (None, f, digest)
  | Net.ReadFails e :: _ => (Some e, f, digest)
  | Net.Chunk chunk :: fin =>
      if bool_decide (length chunk = 0) then (None, f, digest)
      else read_body fin (write f chunk) (digest ++ chunk)
  end.

(** The local variables of [download_warc] that the attempts update, and
    the requests sent so far, each with the byte length of the temp file at
    the time (the length is recorded for the proofs only). *)
Record transfer := {
  ftemp : tempfile;
  digest : list byte;
  size : option Z;
  sent : list (Request * Z)
}.

Inductive loop_exit :=
| Complete (size : Z)
| Raised (e : Py.exception)
| Exhausted.

Section Transfer.

(** [hashlib.md5]: the hex digest of a byte string. *)
Context (md5_hex : list byte -> string).
(** [urlopen]: the answer to the [n]-th request of the task. *)
Context (urlopen : nat -> Request -> Py.result HTTPResponse).

(** [while attempt < MAX_ATTEMPTS], with [remaining = MAX_ATTEMPTS - attempt]. *)
Fixpoint attempts (path : string) (remaining attempt : nat) (st : transfer)
  : loop_exit * transfer :=
  match remaining with
  | 0 => (Exhausted, st)
  | S remaining =>
      let attempt := S attempt in
      let request :=
        {| full_url := CC_HOST +:+ "/" +:+ path;
           range_start := tell (ftemp st) |} in
      let st :=
        {| ftemp := ftemp st; digest := digest st; size := size st;
           sent := sent st ++ [(request, Z.of_nat (length (data (ftemp st))))] |} in
      match urlopen attempt request with
      | Py.Raise e => (Raised e, st)
      | Py.Return fin =>
          match get_content_length fin with
          | Py.Raise e => (Raised e, st)
          | Py.Return total =>
              let '(err, f, d) := read_body (body fin) (ftemp st) (digest st) in
              let st :=
                {| ftemp := f; digest := d; size := Some total; sent := sent st |} in
              match err with
              | Some e => (Raised e, st)
              | None =>
                  if (tell f <? total)%Z then attempts path remaining attempt st
                  else if (tell f >? total)%Z then
                    (Raised (Py.Exc "Exception"
                       ("Downloaded too much: " +:+ Py.str_int (tell f)
                        +:+ " > " +:+ Py.str_int total)), st)
                  else (Complete total, st)
              end
          end
      end
  end.

(** What a call of [download_warc] leaves: the value returned, the file
    system, the requests sent. *)
Record outcome := {
  result : DownloadResult;
  disk : FS.t;
  requests : list (Request * Z)
}.

(** [elapsed] is [(datetime.now() - start_time).seconds] at the return. *)
Definition download_warc (fs : FS.t) (elapsed : Z) (path : string) : outcome :=
  let file_name := Py.basename path in
  let temp_name := "." +:+ file_name in
  if FS.path_exists fs file_name then
    {| result := FileExists path; disk := fs; requests := [] |}
  else
    match FS.open_append fs temp_name with
    | Py.Raise err =>
        {| result := DownloadError path None elapsed (Py.exc_str err);
           disk := fs; requests := [] |}
    | Py.Return (fs, content) =>
        let '(f, d) :=
          read_to_end (S (length content))
            (seek_start {| data := content; pos := length content |}) [] in
        let '(exit, st) :=
          attempts path MAX_ATTEMPTS 0
            {| ftemp := f; digest := d; size := None; sent := [] |} in
        let fs := <[temp_name := FS.File (data (ftemp st))]> fs in
        match exit with
        | Complete total =>
            match FS.rename fs temp_name file_name with
            | Py.Return fs =>
                {| result := FileDownloaded path total elapsed (md5_hex (digest st));
                   disk := fs; requests := sent st |}
            | Py.Raise err =>
                {| result := DownloadError path (size st) elapsed (Py.exc_str err);
                   disk := fs; requests := sent st |}
            end
        | Raised err =>
            {| result := DownloadError path (size st) elapsed (Py.exc_str err);
               disk := fs; requests := sent st |}
        | Exhausted =>
            {| result :=
                 DownloadError path (size st) elapsed
                   ("Downloaded not enough: " +:+ Py.str_int (tell (ftemp st))
                    +:+ " < " +:+ Py.str_opt_int (size st));
               disk := fs; requests := sent st |}
        end
    end.

End Transfer.

(** The loop of [__main__] over the results of the pool: a row for a
    [FileDownloaded], a row for a [DownloadError], nothing for a
    [FileExists]. [now n] is [datetime.now().isoformat()] at the [n]-th
    result. *)
Definition report (now : string) (result : DownloadResult) : list Csv.row :=
  match result with
  | FileDownloaded path size time md5 =>
      [Csv.Row now (Py.basename path) (Py.basename path)
         (Some path) (Some size) (Some time) (Some md5) None]
  | DownloadError path _ _ error =>
      [Csv.Row now (Py.basename path) (Py.basename path)
         None None None None (Some error)]
  | FileExists _ => []
  end.

Fixpoint main_loop (now : nat -> string) (n : nat) (results : list DownloadResult)
  : list Csv.row :=
  match results with
  | [] => []
  | result :: results => report (now n) result ++ main_loop now (S n) results
  end.

(** The script has no [sys.exit]: when the loop ends the interpreter leaves
    with status 0. *)
Definition main (now : nat -> string) (results : list DownloadResult)
  : list Csv.row * Z :=
  (main_loop now 0 results, 0%Z).

End CC.

(** ** ia-download.py *)

Module IA.

Record File := {
  name : string;
  url : string;
  md5 : string
}.

(** The named tuple [Download(path, size, md5, time)]. *)
Inductive Download :=
| mkDownload (path : string) (size : Z) (md5 : string) (time : Z).

(** What [worker_download_file] returns as [retval]: [None], a [Download]
    or the exception caught. *)
Inductive retval :=
| RetNone
| RetDownload (d : Download)
| RetError (err : Py.exception).

(** The response of [session.get(url, stream=True)]: the status, the
    headers, and what [iter_content] yields. *)
Record Response := {
  ok : bool;
  reason : string;
  headers : gmap string string;
  content : list Net.read_event
}.

(** The temporary file name in the directory of the destination. *)
Definition temp_path_of (pid : Z) (file_path : string) : string :=
  let '(dest_dir, file_name) := Py.path_split file_path in
  Py.path_join dest_dir ("." +:+ file_name +:+ "~" +:+ Py.str_int pid).

(** [for chunk in response.iter_content(...)]: the bytes written to
    [fout], their count, the bytes fed to the digest. *)
Fixpoint write_chunks (content : list Net.read_event)
    (fout : list byte) (size : Z) (digest : list byte)
  : option Py.exception * list byte * Z * list byte :=
  match content with
  | [] => (None, fout, size, digest)
  | Net.ReadFails e :: _ => (Some e, fout, size, digest)
  | Net.Chunk chunk :: content =>
      write_chunks content (fout ++ chunk)
        (size + Z.of_nat (length chunk))%Z (digest ++ chunk)
  end.

(** The loop of [compute_md5]: [fh.read(buffering)] until it returns
    nothing. Each turn that does not leave the loop consumes at least one
    byte, so [S (length rest)] turns are enough. *)
Fixpoint read_chunks (turns buffering : nat) (rest digest : list byte) : list byte :=
  match turns with
  | 0 => digest
  | S turns =>
      let chunk := take buffering rest in
      if bool_decide (length chunk = 0) then digest
      else read_chunks turns buffering (drop buffering rest) (digest ++ chunk)
  end.

Section Worker.

(** [hashlib.md5]: the hex digest of a byte string. *)
Context (md5_hex : list byte -> string).
(** [session.get] with the credentials of the session. *)
Context (session_get : string -> Py.result Response).
(** [os.getpid()] and [(datetime.now() - start_time).seconds]. *)
Context (pid : Z) (elapsed : Z).

Definition download_file (fs : FS.t) (file : File) (file_path : string)
  : Py.result Download * FS.t :=
  let temp_path := temp_path_of pid file_path in
  match session_get (url file) with
  | Py.Raise err => (Py.Raise err, fs)
  | Py.Return response =>
      if negb (ok response) then
        (Py.Raise (Py.Exc "DownloadError" (reason response)), fs)
      else
        (* try: *)
        let '(body, fs) :=
          match FS.open_write fs temp_path with
          | Py.Raise err => (Py.Raise err, fs)
          | Py.Return fs =>
              let '(err, fout, size, digest) :=
                write_chunks (content response) [] 0%Z [] in
              let fs := <[temp_path := FS.File fout]> fs in
              match err with
              | Some err => (Py.Raise err, fs)
              | None =>
                  if negb (String.eqb (md5_hex digest) (md5 file)) then
                    (Py.Raise (Py.Exc "DownloadError" "md5 mismatch"), fs)
                  else
                    match FS.rename fs temp_path file_path with
                    | Py.Raise err => (Py.Raise err, fs)
                    | Py.Return fs => (Py.Return (size, digest), fs)
                    end
              end
          end in
        (* finally: *)
        let '(cleanup, fs) :=
          if FS.path_exists fs temp_path then
            match FS.unlink fs temp_path with
            | Py.Raise err => (Py.Raise err, fs)
            | Py.Return fs => (Py.Return (), fs)
            end
          else (Py.Return (), fs) in
        match cleanup, body with
        | Py.Raise err, _ => (Py.Raise err, fs)
        | Py.Return _, Py.Raise err => (Py.Raise err, fs)
        | Py.Return _, Py.Return (size, digest) =>
            (Py.Return (mkDownload file_path size (md5_hex digest) elapsed), fs)
        end
  end.

Definition compute_md5 (fs : FS.t) (path : string) : Py.result string :=
  fh ← FS.open_read fs path;
  mret (md5_hex (read_chunks (S (length fh)) (2 ^ 16) fh [])).

Definition worker_download_file (fs : FS.t)
    (entry : (string * File) * string * bool)
  : Py.result (string * File * retval) * FS.t :=
  let '((item, file), dest_dir, check_md5) := entry in
  let item_path := Py.path_join dest_dir item in
  let file_path := Py.path_join item_path (name file) in
  (* If we find the wrong md5, delete the file. *)
  let checked :=
    if check_md5 && FS.path_exists fs file_path then
      file_md5 ← compute_md5 fs file_path;
      if negb (String.eqb file_md5 (md5 file)) then FS.unlink fs file_path
      else mret fs
    else mret fs in
  match checked with
  | Py.Raise err => (Py.Raise err, fs)
  | Py.Return fs =>
      if negb (FS.path_exists fs file_path) then
        (* try: *)
        match FS.makedirs fs item_path with
        | Py.Raise err => (Py.Return (item, file, RetError err), fs)
        | Py.Return fs =>
            match download_file fs file file_path with
            | (Py.Return d, fs) => (Py.Return (item, file, RetDownload d), fs)
            | (Py.Raise err, fs) => (Py.Return (item, file, RetError err), fs)
            end
        end
      else (Py.Return (item, file, RetNone), fs)
  end.

End Worker.

(** The state of the loop of [__main__]: the two counters and the rows
    written. *)
Record tally := {
  total_errors : nat;
  consecutive_errors : nat;
  out : list Csv.row
}.

(** [if consecutive_errors > 100: raise RuntimeError(...)]. *)
Definition check_consecutive (t : tally) : tally * option Py.exception :=
  if (100 <? consecutive_errors t)%nat then
    (t, Some (Py.Exc "RuntimeError" "More than a 100 consecutive errors"))
  else (t, None).

(** One turn of the loop on a result of the pool; the exception, if the
    turn raises one. [now] is [datetime.now().isoformat()]. *)
Definition loop_body (now : string) (t : tally) (r : string * File * retval)
  : tally * option Py.exception :=
  let '(item, file, retval) := r in
  match retval with
  | RetNone => (t, None)
  | RetDownload (mkDownload path size md5 time) =>
      check_consecutive
        {| total_errors := total_errors t;
           consecutive_errors := 0;
           out := out t ++ [Csv.Row now item (name file)
                              (Some path) (Some size) (Some time) (Some md5) None] |}
  | RetError err =>
      check_consecutive
        {| total_errors := total_errors t + 1;
           consecutive_errors := consecutive_errors t + 1;
           out := out t ++ [Csv.Row now item (name file)
                              None None None None (Some (Py.exc_str err))] |}
  end.

Fixpoint main_loop (now : nat -> string) (n : nat)
    (results : list (string * File * retval)) (t : tally)
  : tally * option Py.exception :=
  match results with
  | [] => (t, None)
  | r :: results =>
      match loop_body (now n) t r with
      | (t, Some err) => (t, Some err)
      | (t, None) => main_loop now (S n) results t
      end
  end.

(** How the process ends: [sys.exit(status)], or an exception that nothing
    catches. *)
Inductive ending :=
| SysExit (status : Z)
| Uncaught (err : Py.exception).

Definition start : tally :=
  {| total_errors := 0; consecutive_errors := 0; out := [] |}.

Definition finish (t : tally) (raised : option Py.exception) : list Csv.row * ending :=
  match raised with
  | Some err => (out t, Uncaught err)
  | None => (out t, SysExit (if (0 <? total_errors t)%nat then 1%Z else 0%Z))
  end.

(** [__main__] from the loop on, on the results the pool yields. *)
Definition main (now : nat -> string) (results : list (string * File * retval))
  : list Csv.row * ending :=
  let '(t, raised) := main_loop now 0 results start in
  finish t raised.

(** The same loop on what [next] of the iterator of the pool gives, turn
    after turn: a result, or an exception, which nothing catches, be it one
    that left [worker_download_file] or one raised while the next entry was
    produced, as by [ia_get_files]. *)
Fixpoint pool_loop (now : nat -> string) (n : nat)
    (yields : list (Py.result (string * File * retval))) (t : tally)
  : tally * option Py.exception :=
  match yields with
  | [] => (t, None)
  | Py.Raise err :: _ => (t, Some err)
  | Py.Return r :: yields =>
      match loop_body (now n) t r with
      | (t, Some err) => (t, Some err)
      | (t, None) => pool_loop now (S n) yields t
      end
  end.

(** [__main__] from the loop on, on what the iterator gives. *)
Definition run (now : nat -> string)
    (yields : list (Py.result (string * File * retval)))
  : list Csv.row * ending :=
  let '(t, raised) := pool_loop now 0 yields start in
  finish t raised.

(** The exit code of the process: the argument of [sys.exit], and 1 when
    the interpreter ends on an exception that nothing caught. *)
Definition exit_code (e : ending) : Z :=
  match e with
  | SysExit status => status
  | Uncaught _ => 1%Z
  end.

Section SingleWorker.

Context (md5_hex : list byte -> string).
Context (session_get : string -> Py.result Response).
Context (pid : Z) (elapsed : Z).

(** The same loop over [FakePool.imap_unordered]: the generator calls
    [worker_download_file] on the next entry when the loop asks for the
    next result, and an exception of the worker leaves the loop. *)
Fixpoint fake_pool_loop (now : nat -> string) (n : nat)
    (entries : list ((string * File) * string * bool)) (fs : FS.t) (t : tally)
  : tally * option Py.exception * FS.t :=
  match entries with
  | [] => (t, None, fs)
  | entry :: entries =>
      match worker_download_file md5_hex session_get pid elapsed fs entry with
      | (Py.Raise err, fs) => (t, Some err, fs)
      | (Py.Return r, fs) =>
          match loop_body (now n) t r with
          | (t, Some err) => (t, Some err, fs)
          | (t, None) => fake_pool_loop now (S n) entries fs t
          end
      end
  end.

Definition main_fake_pool (now : nat -> string)
    (entries : list ((string * File) * string * bool)) (fs : FS.t)
  : list Csv.row * ending * FS.t :=
  let '(t, raised, fs) := fake_pool_loop now 0 entries fs start in
  (finish t raised, fs).

End SingleWorker.

End IA.

(** ** ia-download.py: the listing of an item ([ia_get_files])

    The cache is the [dbm] file, a map from keys to pickled lists of
    [File]; [pickle.loads (pickle.dumps files)] is [files], so the map holds
    the lists themselves. [None] is a run without [--cache]. *)

Module Listing.

(** [isinstance(err, requests.exceptions.ConnectionError)]: the class or
    one of its subclasses. *)
Definition is_connection_error (err : Py.exception) : bool :=
  existsb (String.eqb (Py.exc_class err))
    ["ConnectionError"; "ProxyError"; "SSLError"; "ConnectTimeout"].

(** The f-string [f"{item}${glob_pattern!s}"]. *)
Definition cache_key (item : string) (glob_pattern : option string) : string :=
  item +:+ "$" +:+ match glob_pattern with Some g => g | None => "None" end.

Section WithSession.

(** [session.get_item(item).get_files(glob_pattern=...)]: the answer to
    the call made at the turn [retry] of the loop. *)
Context (get_files : nat -> string -> string -> Py.result (list IA.File)).
(** The global [args.filter]. *)
Context (args_filter : string).

(** [for retry in range(1, 6)]: the response when a call succeeds ([None]
    when the loop runs out), and the seconds slept, in order. *)
Fixpoint fetch (retries : list nat) (item : string) (slept : list Z)
  : Py.result (option (list IA.File)) * list Z :=
  match retries with
  | [] => (Py.Return None, slept)
  | retry :: retries =>
      match get_files retry item args_filter with
      | Py.Return response => (Py.Return (Some response), slept)
      | Py.Raise err =>
          if is_connection_error err then
            if retry <? 5 then fetch retries item (slept ++ [4 ^ Z.of_nat retry])%Z
            else (Py.Raise err, slept)
          else (Py.Raise err, slept)
      end
  end.

(** The files, the cache afterwards, the seconds slept. *)
Definition ia_get_files (cache : option (gmap string (list IA.File)))
    (item : string) (glob_pattern : option string)
  : Py.result (list IA.File) * option (gmap string (list IA.File)) * list Z :=
  let key := cache_key item glob_pattern in
  match cache ≫= (λ c, c !! key) with
  | Some files => (Py.Return files, cache, [])
  | None =>
      match fetch (seq 1 5) item [] with
      | (Py.Return (Some response), slept) =>
          (Py.Return response, insert key response <$> cache, slept)
      | (Py.Return None, slept) =>
          (Py.Raise (Py.Exc "TypeError" "'NoneType' object is not iterable"),
           cache, slept)
      | (Py.Raise err, slept) => (Py.Raise err, cache, slept)
      end
  end.

End WithSession.

End Listing.

(** ** ia-download.py: [__main__] with a single worker

    [FakePool] pulls the entries from the generator [files] one at a time:
    [ia_get_files] is called for an item when the entry after the last file
    of the item before is asked for, and each file goes through
    [worker_download_file] and the body of the loop before the next is
    produced. An exception of [ia_get_files] leaves the generator, and
    with it the loop. *)

Module Program.

Section SingleWorker.

Context (md5_hex : list byte -> string).
Context (session_get : string -> Py.result IA.Response).
Context (pid : Z) (elapsed : Z).
Context (get_files : nat -> string -> string -> Py.result (list IA.File)).
(** [args.filter], [args.dest] and [args.check_md5]. *)
Context (args_filter args_dest : string) (args_check_md5 : bool).

(** [zip(files, repeat(args.dest), repeat(args.check_md5))] for the files
    of one item. *)
Definition entries (item : string) (files : list IA.File)
  : list ((string * IA.File) * string * bool) :=
  map (λ file, ((item, file), args_dest, args_check_md5)) files.

Fixpoint items_loop (now : nat -> string) (n : nat) (identifiers : list string)
    (cache : option (gmap string (list IA.File))) (fs : FS.t) (t : IA.tally)
  : IA.tally * option Py.exception * FS.t * option (gmap string (list IA.File)) :=
  match identifiers with
  | [] => (t, None, fs, cache)
  | item :: identifiers =>
      match Listing.ia_get_files get_files args_filter cache item (Some args_filter) with
      | (Py.Raise err, cache, _) => (t, Some err, fs, cache)
      | (Py.Return files, cache, _) =>
          match IA.fake_pool_loop md5_hex session_get pid elapsed now n
                  (entries item files) fs t with
          | (t, Some err, fs) => (t, Some err, fs, cache)
          | (t, None, fs) =>
              items_loop now (n + length files) identifiers cache fs t
          end
      end
  end.

(** The rows, the ending, the file system and the cache at the end. *)
Definition main (now : nat -> string) (identifiers : list string)
    (cache : option (gmap string (list IA.File))) (fs : FS.t)
  : list Csv.row * IA.ending * FS.t * option (gmap string (list IA.File)) :=
  let '(t, raised, fs, cache) := items_loop now 0 identifiers cache fs IA.start in
  (IA.finish t raised, fs, cache).

End SingleWorker.

End Program.

(** * Notions used in the statements *)

(** ** Sizes advertised by a response *)

(** The total field of the [Content-Range] header: what follows the only
    ['/'] of its value. There is none when the header is absent or its value
    does not split into exactly two fields. *)
Definition range_total (response : CC.HTTPResponse) : option string :=
  match Py.split_slash <$> CC.getheader response "Content-Range" with
  | Some [_; total] => Some total
  | _ => None
  end.

(** A source yields a size when its field is there and reads as an
    integer. *)
Definition range_yields_size (response : CC.HTTPResponse) : Prop :=
  ∃ total z, range_total response = Some total ∧ total ≠ "*"
             ∧ Py.int_literal total = Some z.

Definition length_yields_size (response : CC.HTTPResponse) : Prop :=
  ∃ size z, CC.getheader response "Content-Length" = Some size
            ∧ Py.int_literal size = Some z.

(** The rule as the specification words it. *)
Definition stated_size_rule (response : CC.HTTPResponse) : Prop :=
  (∀ total, range_total response = Some total → total ≠ "*" →
     CC.get_content_length response = Py.int total)
  ∧ (range_total response = Some "*"
     ∨ CC.getheader response "Content-Range" = None →
     ∀ size, CC.getheader response "Content-Length" = Some size →
       CC.get_content_length response = Py.int size)
  ∧ (Py.raises (CC.get_content_length response) = true
     ↔ ¬ range_yields_size response ∧ ¬ length_yields_size response).

(** What the fallback on [Content-Length] answers. *)
Definition from_content_length (response : CC.HTTPResponse) : Py.result Z :=
  match CC.getheader response "Content-Length" with
  | Some size => Py.int size
  | None => Py.Raise (Py.Exc "ValueError" "No content size")
  end.

(** ** Results of the pool, by variant *)

(** Failed: the worker returned an exception. *)
Definition is_failed (r : string * IA.File * IA.retval) : bool :=
  match r.2 with
  | IA.RetError _ => true
  | _ => false
  end.

(** Completed: the worker returned a [Download]. *)
Definition is_completed (r : string * IA.File * IA.retval) : bool :=
  match r.2 with
  | IA.RetDownload _ => true
  | _ => false
  end.


(** The number of [Failed] results of a list. *)
Fixpoint failures (results : list (string * IA.File * IA.retval)) : nat :=
  match results with
  | [] => 0
  | r :: results => (if is_failed r then 1 else 0) + failures results
  end.

(** The error of the circuit breaker. *)
Definition breaker_error : Py.exception :=
  Py.Exc "RuntimeError" "More than a 100 consecutive errors".

(** The loop raises: the run is aborted. *)
Definition aborted (now : nat -> string)
    (results : list (string * IA.File * IA.retval)) : Prop :=
  (IA.main_loop now 0 results IA.start).2 = Some breaker_error.

(** What the loop is given by an iterator that can raise: the results
    before the first exception, and that exception. *)
Fixpoint results_before (yields : list (Py.result (string * IA.File * IA.retval)))
  : list (string * IA.File * IA.retval) :=
  match yields with
  | Py.Return r :: yields => r :: results_before yields
  | _ => []
  end.

Fixpoint raised_by (yields : list (Py.result (string * IA.File * IA.retval)))
  : option Py.exception :=
  match yields with
  | [] => None
  | Py.Raise err :: _ => Some err
  | Py.Return _ :: yields => raised_by yields
  end.

(** What the iterator of [FakePool] gives in a run of the program with a
    single worker: the results of the workers, file after file and item
    after item, up to the first exception of a worker or of
    [ia_get_files]. *)
Fixpoint entries_yields (md5_hex : list byte -> string)
    (session_get : string -> Py.result IA.Response) (pid elapsed : Z)
    (entries : list ((string * IA.File) * string * bool)) (fs : FS.t)
  : list (string * IA.File * IA.retval) * option Py.exception * FS.t :=
  match entries with
  | [] => ([], None, fs)
  | entry :: entries =>
      match IA.worker_download_file md5_hex session_get pid elapsed fs entry with
      | (Py.Raise err, fs) => ([], Some err, fs)
      | (Py.Return r, fs) =>
          let '(results, raised, fs) :=
            entries_yields md5_hex session_get pid elapsed entries fs in
          (r :: results, raised, fs)
      end
  end.

Fixpoint program_yields (md5_hex : list byte -> string)
    (session_get : string -> Py.result IA.Response) (pid elapsed : Z)
    (get_files : nat -> string -> string -> Py.result (list IA.File))
    (args_filter args_dest : string) (args_check_md5 : bool)
    (identifiers : list string) (cache : option (gmap string (list IA.File)))
    (fs : FS.t)
  : list (Py.result (string * IA.File * IA.retval)) :=
  match identifiers with
  | [] => []
  | item :: identifiers =>
      match Listing.ia_get_files get_files args_filter cache item (Some args_filter) with
      | (Py.Raise err, _, _) => [Py.Raise err]
      | (Py.Return files, cache, _) =>
          match entries_yields md5_hex session_get pid elapsed
                  (Program.entries args_dest args_check_md5 item files) fs with
          | (results, Some err, _) => map Py.Return results ++ [Py.Raise err]
          | (results, None, fs) =>
              map Py.Return results
              ++ program_yields md5_hex session_get pid elapsed get_files
                   args_filter args_dest args_check_md5 identifiers cache fs
          end
      end
  end.

(** The rule of the circuit breaker as the specification words it: the run
    is aborted exactly when more than 100 results in a row are failures. *)
Definition stated_breaker_rule (now : nat -> string)
    (results : list (string * IA.File * IA.retval)) : Prop :=
  aborted now results
  ↔ ∃ l1 l2 l3, results = l1 ++ l2 ++ l3 ∧ 100 < length l2
                ∧ Forall (λ r, is_failed r = true) l2.


Definition cc_is_failed (result : CC.DownloadResult) : bool :=
  match result with
  | CC.DownloadError _ _ _ _ => true
  | _ => false
  end.



(** ** The resumable transfer *)

(** The bytes [read_body] takes from a response: the chunks up to the
    first empty one or the first failure. *)
Fixpoint received (fin : list Net.read_event) : list byte :=
  match fin with
  | Net.Chunk chunk :: fin =>
      if bool_decide (length chunk = 0) then [] else chunk ++ received fin
  | _ => []
  end.

(** The failure that ends the reading, if one does. *)
Fixpoint read_error (fin : list Net.read_event) : option Py.exception :=
  match fin with
  | [] => None
  | Net.ReadFails e :: _ => Some e
  | Net.Chunk chunk :: fin =>
      if bool_decide (length chunk = 0) then None else read_error fin
  end.

(** The handle stands at the end of the file. *)
Definition at_end (f : CC.tempfile) : Prop := CC.pos f = length (CC.data f).

(** The handle stands at the end and the digest has been fed the bytes of
    the file. *)
Definition sound (st : CC.transfer) : Prop :=
  at_end (CC.ftemp st) ∧ CC.digest st = CC.data (CC.ftemp st).

(** The transfer as the attempts find it: the handle at the end of the
    bytes already on disk, the digest fed with them. *)
Definition resumed (content : list byte) : CC.transfer :=
  {| CC.ftemp := {| CC.data := content; CC.pos := length content |};
     CC.digest := content; CC.size := None; CC.sent := [] |}.

(** Every one of the next [remaining] attempts is cut short: the request
    is answered, the response advertises a total, the reading does not
    fail, and the body ends with the temp file still short of the total.
    [offset] is the length of the temp file before the attempt. *)
Fixpoint always_truncated (urlopen : nat -> CC.Request -> Py.result CC.HTTPResponse)
    (path : string) (remaining attempt : nat) (offset : Z) : bool :=
  match remaining with
  | 0 => true
  | S remaining =>
      match urlopen (S attempt)
              {| CC.full_url := CC.CC_HOST +:+ "/" +:+ path; CC.range_start := offset |} with
      | Py.Return fin =>
          match CC.get_content_length fin, read_error (CC.body fin) with
          | Py.Return total, None =>
              let offset := (offset + Z.of_nat (length (received (CC.body fin))))%Z in
              (offset <? total)%Z && always_truncated urlopen path remaining (S attempt) offset
          | _, _ => false
          end
      | Py.Raise _ => false
      end
  end.

(** ** The full-body transfer *)

(** The string has no ['/'] in it. *)
Fixpoint no_slash (s : string) : bool :=
  match s with
  | EmptyString => true
  | String c s => negb (Ascii.eqb c "/") && no_slash s
  end.

(** The bytes [iter_content] yields before it ends or fails. *)
Fixpoint streamed (content : list Net.read_event) : list byte :=
  match content with
  | Net.Chunk chunk :: content => chunk ++ streamed content
  | _ => []
  end.

(** The failure that ends the iteration, if one does. *)
Fixpoint stream_error (content : list Net.read_event) : option Py.exception :=
  match content with
  | [] => None
  | Net.ReadFails e :: _ => Some e
  | Net.Chunk _ :: content => stream_error content
  end.

(** The total size a response advertises: its [Content-Length]. The
    script never reads it. *)
Definition advertised_total (response : IA.Response) : option Z :=
  IA.headers response !! "Content-Length" ≫= Py.int_literal.

(** * Sample data for the concrete runs *)

(** The answer to a range request: 600 bytes of a resource of 1000. *)
Definition partial_content : CC.HTTPResponse :=
  {| CC.headers := {[ "Content-Range" := "bytes 400-999/1000";
                      "Content-Length" := "600" ]};
     CC.body := [] |}.

(** The answer to a range request on a resource of unknown total. *)
Definition unknown_total : CC.HTTPResponse :=
  {| CC.headers := {[ "Content-Range" := "bytes 0-599/*";
                      "Content-Length" := "600" ]};
     CC.body := [] |}.

(** A response whose [Content-Range] total is no integer, with a good
    [Content-Length]. *)
Definition garbled_range : CC.HTTPResponse :=
  {| CC.headers := {[ "Content-Range" := "bytes 0-1/x"; "Content-Length" := "5" ]};
     CC.body := [] |}.

(** The file [a.warc.gz] of the item [i], listed with the checksum
    ["abc123"]. *)
Definition sample_file : IA.File :=
  {| IA.name := "a.warc.gz"; IA.url := "https://archive.org/download/i/a.warc.gz";
     IA.md5 := "abc123" |}.

(** An error as a worker returns it. *)
Definition sample_error : Py.exception := Py.Exc "DownloadError" "md5 mismatch".

(** A server that sends three bytes of a resource of 100 at each request. *)
Definition stalling_server (n : nat) (request : CC.Request)
  : Py.result CC.HTTPResponse :=
  Py.Return {| CC.headers := {[ "Content-Length" := "100" ]};
               CC.body := [Net.Chunk [x01; x02; x03]] |}.

(** The file [abc.warc.gz] of the item [i], whose listed checksum is the
    MD5 of the three bytes [abc]. *)
Definition abc_file : IA.File :=
  {| IA.name := "abc.warc.gz";
     IA.url := "https://archive.org/download/i/abc.warc.gz";
     IA.md5 := "900150983cd24fb0d6963f7d28e17f72" |}.

(** A response that delivers the three bytes [abc] and advertises a
    [Content-Length] of 10 (the header counts the bytes on the wire, which
    are not those [iter_content] yields when the body is sent encoded). *)
Definition abc_response : IA.Response :=
  {| IA.ok := true; IA.reason := "OK";
     IA.headers := {[ "Content-Length" := "10" ]};
     IA.content := [Net.Chunk (String.list_byte_of_string "abc")] |}.

(** A session whose server answers every request with [abc_response]. *)
Definition abc_session (url : string) : Py.result IA.Response :=
  Py.Return abc_response.

(** A server for the resumable transfer of the specification's scenario:
    the resource has 1000 bytes and the answer to [bytes=400-] carries the
    last 600. *)
Definition resuming_server (n : nat) (request : CC.Request)
  : Py.result CC.HTTPResponse :=
  Py.Return {| CC.headers := {[ "Content-Range" := "bytes 400-999/1000";
                                "Content-Length" := "600" ]};
               CC.body := [Net.Chunk (replicate 600 x62)] |}.

(** A disk with 400 bytes of [a.warc.gz] in its temp file. *)
Definition resumed_disk : FS.t := {[ ".a.warc.gz" := FS.File (replicate 400 x61) ]}.

(** A disk with the directory of the item [i] under [dest] and nothing in
    it. *)
Definition item_disk : FS.t := {[ "dest" := FS.Dir; "dest/i" := FS.Dir ]}.

(** A disk on which the destination of [sample_file] is a directory. *)
Definition blocked_disk : FS.t := <["dest/i/a.warc.gz" := FS.Dir]> item_disk.

(** * Notions used in the further properties *)

(** ** The listing of an item *)

(** [f <$> r] applies [f] to the value of [r]; an exception is passed
    through. *)
#[export] Instance result_fmap : FMap Py.result :=
  λ A B f r, match r with Py.Return a => Py.Return (f a) | Py.Raise e => Py.Raise e end.

(** The waits of [ia_get_files] between its five calls:
    [4 ** retry] seconds for [retry] from 1 to 4. *)
Definition backoff : list Z := [4; 16; 64; 256]%Z.

(** The call failed with a connection error, the one error that
    [ia_get_files] retries. *)
Definition answers_connection_error (r : Py.result (list IA.File)) : bool :=
  match r with
  | Py.Raise err => Listing.is_connection_error err
  | Py.Return _ => false
  end.

(** ** The attempts of the resumable transfer *)

(** What one turn of the loop of [download_warc] decides: to go on from a
    longer temp file, to finish, or to give up with an error. *)
Inductive verdict :=
| Truncated (offset : Z)
| Completes (total : Z)
| Fails (err : Py.exception).

(** The verdict of the attempt numbered [attempt] on a temp file of
    [offset] bytes. *)
Definition attempt_verdict
    (urlopen : nat -> CC.Request -> Py.result CC.HTTPResponse)
    (path : string) (attempt : nat) (offset : Z) : verdict :=
  match urlopen attempt
          {| CC.full_url := CC.CC_HOST +:+ "/" +:+ path; CC.range_start := offset |} with
  | Py.Raise err => Fails err
  | Py.Return fin =>
      match CC.get_content_length fin, read_error (CC.body fin) with
      | Py.Raise err, _ => Fails err
      | Py.Return _, Some err => Fails err
      | Py.Return total, None =>
          let offset := (offset + Z.of_nat (length (received (CC.body fin))))%Z in
          if (offset <? total)%Z then Truncated offset
          else if (offset >? total)%Z then
            Fails (Py.Exc "Exception"
                     ("Downloaded too much: " +:+ Py.str_int offset
                      +:+ " > " +:+ Py.str_int total))
          else Completes total
      end
  end.

(** The length of the temp file after [k] attempts that were cut short. *)
Fixpoint offset_after
    (urlopen : nat -> CC.Request -> Py.result CC.HTTPResponse)
    (path : string) (k attempt : nat) (offset : Z) : Z :=
  match k with
  | 0 => offset
  | S k =>
      match attempt_verdict urlopen path (S attempt) offset with
      | Truncated offset => offset_after urlopen path k (S attempt) offset
      | _ => offset
      end
  end.

(** The bytes the attempt numbered [attempt] adds to a temp file of
    [offset] bytes: what is read from the response, when there is one and
    it advertises a size. *)
Definition attempt_bytes
    (urlopen : nat -> CC.Request -> Py.result CC.HTTPResponse)
    (path : string) (attempt : nat) (offset : Z) : list byte :=
  match urlopen attempt
          {| CC.full_url := CC.CC_HOST +:+ "/" +:+ path; CC.range_start := offset |} with
  | Py.Return fin =>
      match CC.get_content_length fin with
      | Py.Return _ => received (CC.body fin)
      | Py.Raise _ => []
      end
  | Py.Raise _ => []
  end.

(** The bytes that [k] attempts in a row add, from the attempt after
    [attempt] on. *)
Fixpoint received_after
    (urlopen : nat -> CC.Request -> Py.result CC.HTTPResponse)
    (path : string) (k attempt : nat) (offset : Z) : list byte :=
  match k with
  | 0 => []
  | S k =>
      let bytes := attempt_bytes urlopen path (S attempt) offset in
      bytes ++ received_after urlopen path k (S attempt)
                 (offset + Z.of_nat (length bytes))%Z
  end.

(** The bytes of the temp file, none when there is no such file. *)
Definition temp_bytes (fs : FS.t) (temp : string) : list byte :=
  match fs !! temp with
  | Some (FS.File content) => content
  | _ => []
  end.

(** ** Rows and single-worker runs *)





(** The results of the workers run one after the other on the entries, up
    to the first worker that raises. *)
Fixpoint workers_results (md5_hex : list byte -> string)
    (session_get : string -> Py.result IA.Response) (pid elapsed : Z)
    (entries : list ((string * IA.File) * string * bool)) (fs : FS.t)
  : list (string * IA.File * IA.retval) * option Py.exception :=
  match entries with
  | [] => ([], None)
  | entry :: entries =>
      match IA.worker_download_file md5_hex session_get pid elapsed fs entry with
      | (Py.Raise err, _) => ([], Some err)
      | (Py.Return r, fs) =>
          let '(results, raised) :=
            workers_results md5_hex session_get pid elapsed entries fs in
          (r :: results, raised)
      end
  end.

(** * Further sample data *)

(** A listing that fails twice on the connection and then answers. *)
Definition flaky_listing (retry : nat) (item glob_pattern : string)
  : Py.result (list IA.File) :=
  if retry <? 3 then Py.Raise (Py.Exc "ConnectionError" "Connection aborted.")
  else Py.Return [abc_file].

(** A listing that never answers. *)
Definition dead_listing (retry : nat) (item glob_pattern : string)
  : Py.result (list IA.File) :=
  Py.Raise (Py.Exc "ConnectionError" "Connection aborted.").

(** A server that sends three bytes of 100 twice and then refuses the
    connection. *)
Definition failing_server (n : nat) (request : CC.Request)
  : Py.result CC.HTTPResponse :=
  if n <? 3 then stalling_server n request
  else Py.Raise (Py.Exc "URLError" "<urlopen error [Errno 111] Connection refused>").

(** A server that serves a resource of 10 bytes from the offset asked,
    four bytes at most at the first request. *)
Definition two_step_server (n : nat) (request : CC.Request)
  : Py.result CC.HTTPResponse :=
  Py.Return
    {| CC.headers := {[ "Content-Range" := "bytes 0-9/10" ]};
       CC.body := [Net.Chunk (if n <? 2 then replicate 4 x61 else replicate 6 x62)] |}.

(** A file listed under a directory of the item. *)
Definition nested_file : IA.File :=
  {| IA.name := "sub/abc.warc.gz";
     IA.url := "https://archive.org/download/i/sub/abc.warc.gz";
     IA.md5 := "900150983cd24fb0d6963f7d28e17f72" |}.

(** A listing that answers with the two sample files. *)
Definition sample_listing (retry : nat) (item glob_pattern : string)
  : Py.result (list IA.File) :=
  Py.Return [sample_file; abc_file].

(** A session that cannot be reached. *)
Definition dead_session (url : string) : Py.result IA.Response :=
  Py.Raise (Py.Exc "ConnectionError" "Connection aborted.").

(** A disk that holds [abc.warc.gz] of the item [i] with the bytes [abc],
    and one that holds it with other bytes. *)
Definition verified_disk : FS.t :=
  <["dest/i/abc.warc.gz" := FS.File (String.list_byte_of_string "abc")]> item_disk.

Definition corrupt_disk : FS.t :=
  <["dest/i/abc.warc.gz" := FS.File (String.list_byte_of_string "abd")]> item_disk.

(** * Properties *)

(** ** The primitives, evaluated *)

Example int_plain : Py.int "1000" = Py.Return 1000%Z.
Proof. reflexivity. Qed.
Example int_signed_spaced : Py.int " -1_0 " = Py.Return (-10)%Z.
Proof. reflexivity. Qed.
Example int_star : Py.raises (Py.int "*") = true.
Proof. reflexivity. Qed.
Example int_double_underscore : Py.raises (Py.int "1__0") = true.
Proof. reflexivity. Qed.
Example str_int_neg : Py.str_int (-42) = "-42".
Proof. reflexivity. Qed.
Example str_int_zero : Py.str_int 0 = "0".
Proof. reflexivity. Qed.
Example split_range : Py.split_slash "bytes 0-5/10" = ["bytes 0-5"; "10"].
Proof. reflexivity. Qed.
Example split_empty : Py.split_slash "" = [""].
Proof. reflexivity. Qed.
Example path_split_nested : Py.path_split "a/b//c.gz" = ("a/b", "c.gz").
Proof. reflexivity. Qed.
Example path_split_root : Py.path_split "/c.gz" = ("/", "c.gz").
Proof. reflexivity. Qed.
Example path_split_plain : Py.path_split "c.gz" = ("", "c.gz").
Proof. reflexivity. Qed.
Example path_join_plain : Py.path_join "a" "b" = "a/b".
Proof. reflexivity. Qed.
Example path_join_slash : Py.path_join "a/" "b" = "a/b".
Proof. reflexivity. Qed.
Example path_join_empty : Py.path_join "" "b" = "b".
Proof. reflexivity. Qed.
Example path_join_absolute : Py.path_join "a" "/b" = "/b".
Proof. reflexivity. Qed.

Example md5_empty : MD5.hexdigest [] = "d41d8cd98f00b204e9800998ecf8427e".
Proof. vm_compute. reflexivity. Qed.
Example md5_abc :
  MD5.hexdigest (String.list_byte_of_string "abc") = "900150983cd24fb0d6963f7d28e17f72".
Proof. vm_compute. reflexivity. Qed.
Example md5_alphabet :
  MD5.hexdigest (String.list_byte_of_string "abcdefghijklmnopqrstuvwxyz")
  = "c3fcd3d76192e4007dfb496cca67e13b".
Proof. vm_compute. reflexivity. Qed.
Example md5_two_blocks :
  MD5.hexdigest (String.list_byte_of_string
    "12345678901234567890123456789012345678901234567890123456789012345678901234567890")
  = "57edf4a22be3c955ac49da2e2107b67a".
Proof. vm_compute. reflexivity. Qed.

(** ** The size a response advertises ([get_content_length]) *)

Lemma int_raises s : Py.raises (Py.int s) = true ↔ Py.int_literal s = None.
Proof.
  unfold Py.int. destruct (Py.int_literal s); simpl; split; congruence.
Qed.

Lemma get_content_length_cases response :
  CC.get_content_length response =
    match range_total response with
    | Some total =>
        if String.eqb total "*" then from_content_length response
        else Py.int total
    | None => from_content_length response
    end.
Proof.
  unfold CC.get_content_length, range_total, from_content_length.
  destruct (CC.getheader response "Content-Range") as [v|]; simpl.
  - destruct (Py.split_slash v) as [|a [|b [|c l]]]; simpl; try reflexivity.
    destruct (String.eqb b "*"); reflexivity.
  - reflexivity.
Qed.

(** C10 (as amended). [get_content_length] answers [int(total)] when the
    [Content-Range] value splits at ['/'] into exactly two fields and the
    second is not ["*"], also when that field is no integer (it raises
    then, without turning to [Content-Length]); otherwise (header absent,
    another number of fields, or total ["*"]) it answers
    [int(Content-Length)], and raises ['No content size'] when that header
    is absent. So it raises exactly when the field it selects is missing or
    is no integer literal. *)
Theorem get_content_length_selects (response : CC.HTTPResponse) :
  (∀ total, range_total response = Some total → total ≠ "*" →
     CC.get_content_length response = Py.int total)
  ∧ (range_total response = Some "*" ∨ range_total response = None →
     CC.get_content_length response =
       match CC.getheader response "Content-Length" with
       | Some size => Py.int size
       | None => Py.Raise (Py.Exc "ValueError" "No content size")
       end)
  ∧ (Py.raises (CC.get_content_length response) = true
     ↔ match range_total response with
       | Some total =>
           if String.eqb total "*" then ¬ length_yields_size response
           else Py.int_literal total = None
       | None => ¬ length_yields_size response
       end).
Proof.
  assert (Hfallback :
    Py.raises (from_content_length response) = true
    ↔ ¬ length_yields_size response).
  { unfold from_content_length, length_yields_size.
    destruct (CC.getheader response "Content-Length") as [size|]; simpl.
    - rewrite int_raises. split.
      + intros Hnone (size' & z & Heq & Hz). congruence.
      + intros Hno. destruct (Py.int_literal size) as [z|] eqn:Hz; [|done].
        exfalso. apply Hno. by exists size, z.
    - split; [|done]. intros _ (size' & z & Heq & _). congruence. }
  rewrite get_content_length_cases. split; [|split].
  - intros total -> Hstar.
    by apply String.eqb_neq in Hstar as ->.
  - intros [-> | ->]; reflexivity.
  - destruct (range_total response) as [total|]; [|done].
    destruct (String.eqb total "*"); [done|]. apply int_raises.
Qed.

(** The rule on the answer to a range request and on one of unknown
    total. *)
Lemma get_content_length_selects_witness :
  CC.get_content_length partial_content = Py.int "1000"
  ∧ CC.get_content_length unknown_total = Py.int "600".
Proof.
  split.
  - apply (proj1 (get_content_length_selects partial_content) "1000");
      [reflexivity | discriminate].
  - apply (proj1 (proj2 (get_content_length_selects unknown_total))).
    left. reflexivity.
Defined.

Example content_length_of_partial_content :
  CC.get_content_length partial_content = Py.Return 1000%Z.
Proof. reflexivity. Qed.

Example content_length_without_headers :
  CC.get_content_length {| CC.headers := ∅; CC.body := [] |}
  = Py.Raise (Py.Exc "ValueError" "No content size").
Proof. reflexivity. Qed.

Example content_length_of_garbled_range :
  CC.get_content_length garbled_range
  = Py.Raise (Py.Exc "ValueError" "invalid literal for int() with base 10: 'x'").
Proof. reflexivity. Qed.

(** C10 (as stated) fails: on [garbled_range] the function raises although
    [Content-Length] yields the size 5. *)
Lemma stated_size_rule_fails : ¬ stated_size_rule garbled_range.
Proof.
  intros (_ & _ & [Hraises _]).
  destruct Hraises as [_ Hlen]; [by vm_compute|].
  apply Hlen. exists "5", 5%Z. by vm_compute.
Qed.

(** ** The result loop of ia-download.py and its circuit breaker *)

Lemma failures_app l1 l2 : failures (l1 ++ l2) = failures l1 + failures l2.
Proof. induction l1 as [|r l1 IH]; simpl; [done | rewrite IH; lia]. Qed.

Lemma failures_replicate_failed n r :
  is_failed r = true → failures (replicate n r) = n.
Proof. intros Hr. induction n as [|n IH]; simpl; [done | rewrite Hr, IH; lia]. Qed.

(** C3 (as amended). After a turn of the loop on a result, the counter
    [consecutive_errors] is 0 when the result is a [Download] (Completed),
    its previous value plus one when the result is an exception (Failed),
    and its previous value, unchanged, when the result is [None]
    (AlreadyPresent): that turn is left by [continue]. *)
Theorem loop_body_counter (now : string) (t : IA.tally)
    (item : string) (file : IA.File) (retval : IA.retval) :
  IA.consecutive_errors (IA.loop_body now t (item, file, retval)).1 =
    match retval with
    | IA.RetDownload _ => 0
    | IA.RetError _ => IA.consecutive_errors t + 1
    | IA.RetNone => IA.consecutive_errors t
    end.
Proof.
  destruct retval as [|[path size md5 time]|err]; simpl; [done|done|].
  unfold IA.check_consecutive. by destruct (Nat.ltb _ _).
Qed.

(** C3 (as stated) fails: after a failure, a file found already present
    leaves the counter at 1, not 0. *)
Lemma present_does_not_reset :
  IA.consecutive_errors
    (IA.main_loop (λ _, "2024-01-01T00:00:00") 0
       [("i", sample_file, IA.RetError sample_error)] IA.start).1 = 1
  ∧ IA.consecutive_errors
      (IA.main_loop (λ _, "2024-01-01T00:00:00") 0
         [("i", sample_file, IA.RetError sample_error);
          ("i", sample_file, IA.RetNone)] IA.start).1 = 1.
Proof. split; reflexivity. Qed.

(** The loop from a counter [c]: it raises exactly when the results begin
    with a stretch free of [Download]s that brings the counter above 100,
    or hold such a stretch with more than 100 failures further on. *)
Lemma main_loop_raises now n results t :
  IA.consecutive_errors t ≤ 100 →
  (IA.main_loop now n results t).2 = Some breaker_error
  ↔ (∃ l2 l3, results = l2 ++ l3 ∧ Forall (λ r, is_completed r = false) l2
              ∧ 100 < IA.consecutive_errors t + failures l2)
    ∨ (∃ l1 l2 l3, results = l1 ++ l2 ++ l3
                   ∧ Forall (λ r, is_completed r = false) l2
                   ∧ 100 < failures l2).
Proof.
  revert n t. induction results as [|r results IH]; intros n t Hc.
  - simpl. split; [done|].
    intros [(l2 & l3 & Heq & _ & Hlt) | (l1 & l2 & l3 & Heq & _ & Hlt)].
    + symmetry in Heq. apply app_eq_nil in Heq as [-> _]. simpl in Hlt. lia.
    + symmetry in Heq. apply app_eq_nil in Heq as [_ Heq].
      apply app_eq_nil in Heq as [-> _]. simpl in Hlt. lia.
  - destruct r as [[item file] retval].
    destruct retval as [|[path size md5 time]|err]; simpl.
    + (* None: the turn is skipped *)
      rewrite IH by done. split.
      * intros [(l2 & l3 & -> & Hall & Hlt) | (l1 & l2 & l3 & -> & Hall & Hlt)].
        -- left. exists ((item, file, IA.RetNone) :: l2), l3.
           split; [done|]. split; [by constructor | done].
        -- right. exists ((item, file, IA.RetNone) :: l1), l2, l3. done.
      * intros [(l2 & l3 & Heq & Hall & Hlt) | (l1 & l2 & l3 & Heq & Hall & Hlt)].
        -- destruct l2 as [|r l2]; [simpl in Hlt; lia|].
           simplify_eq/=.
           apply Forall_cons in Hall as [_ Hall].
           left. exists l2, l3. done.
        -- destruct l1 as [|r l1].
           ++ destruct l2 as [|r l2]; [simpl in Hlt; lia|].
              simplify_eq/=.
              apply Forall_cons in Hall as [_ Hall].
              right. exists [], l2, l3. done.
           ++ simplify_eq/=.
              right. exists l1, l2, l3. done.
    + (* Download: the counter restarts *)
      unfold IA.check_consecutive; simpl.
      rewrite IH by (simpl; lia). simpl. split.
      * intros [(l2 & l3 & -> & Hall & Hlt) | (l1 & l2 & l3 & -> & Hall & Hlt)].
        -- right. exists [(item, file, IA.RetDownload (IA.mkDownload path size md5 time))], l2, l3.
           done.
        -- right. exists ((item, file, IA.RetDownload (IA.mkDownload path size md5 time)) :: l1), l2, l3.
           done.
      * intros [(l2 & l3 & Heq & Hall & Hlt) | (l1 & l2 & l3 & Heq & Hall & Hlt)].
        -- destruct l2 as [|r l2]; [simpl in Hlt; lia|].
           simplify_eq/=.
           apply Forall_cons in Hall as [Hr _]. discriminate.
        -- destruct l1 as [|r l1].
           ++ destruct l2 as [|r l2]; [simpl in Hlt; lia|].
              simplify_eq/=.
              apply Forall_cons in Hall as [Hr _]. discriminate.
           ++ simplify_eq/=.
              right. exists l1, l2, l3. done.
    + (* an exception: one more failure *)
      unfold IA.check_consecutive; simpl.
      destruct (Nat.ltb 100 (IA.consecutive_errors t + 1)) eqn:Hover.
      * apply Nat.ltb_lt in Hover. simpl. split; [|done]. intros _.
        left. exists [(item, file, IA.RetError err)], results.
        split; [done|]. split; [by repeat constructor | simpl; lia].
      * apply Nat.ltb_ge in Hover.
        rewrite IH by (simpl; lia). simpl. split.
        -- intros [(l2 & l3 & -> & Hall & Hlt) | (l1 & l2 & l3 & -> & Hall & Hlt)].
           ++ left. exists ((item, file, IA.RetError err) :: l2), l3.
              split; [done|]. split; [by constructor | simpl; lia].
           ++ right. exists ((item, file, IA.RetError err) :: l1), l2, l3. done.
        -- intros [(l2 & l3 & Heq & Hall & Hlt) | (l1 & l2 & l3 & Heq & Hall & Hlt)].
           ++ destruct l2 as [|r l2]; [simpl in Hlt; lia|].
              simplify_eq/=.
              apply Forall_cons in Hall as [_ Hall].
              left. exists l2, l3. split; [done|]. split; [done | simpl in Hlt; lia].
           ++ destruct l1 as [|r l1].
              ** destruct l2 as [|r l2]; [simpl in Hlt; lia|].
                 simplify_eq/=.
                 apply Forall_cons in Hall as [_ Hall].
                 left. exists l2, l3. split; [done|]. split; [done | simpl in Hlt; lia].
              ** simplify_eq/=.
                 right. exists l1, l2, l3. done.
Qed.

(** C2 (as stated) fails: 100 failures, a file found already present, one
    more failure. The run is aborted, and no 101 results in a row are
    failures. *)
Lemma stated_breaker_rule_fails :
  ¬ stated_breaker_rule (λ _, "2024-01-01T00:00:00")
      (replicate 100 ("i", sample_file, IA.RetError sample_error)
       ++ [("i", sample_file, IA.RetNone);
           ("i", sample_file, IA.RetError sample_error)]).
Proof.
  intros [Hrun _].
  destruct Hrun as (l1 & l2 & l3 & Heq & Hlen & Hall); [by vm_compute|].
  assert (Hlens : length l1 + (length l2 + length l3) = 102).
  { rewrite <- !length_app, <- Heq. by vm_compute. }
  assert (Hat : l2 !! (100 - length l1) = Some ("i", sample_file, IA.RetNone)).
  { rewrite <- (lookup_app_l l2 l3), <- (lookup_app_r l1 (l2 ++ l3)) by lia.
    rewrite <- Heq. reflexivity. }
  rewrite Forall_lookup in Hall. by apply Hall in Hat.
Qed.

(** C2 (as amended). The run is aborted with the circuit-breaker error
    exactly when the results hold a stretch with no [Download] (Completed)
    in it and more than 100 failures: a result [None] (AlreadyPresent)
    inside the stretch neither counts nor restarts the count. In
    particular 101 failures in a row abort the run and 100 do not. *)
Theorem breaker_trips (now : nat -> string)
    (results : list (string * IA.File * IA.retval))
    (item : string) (file : IA.File) (err : Py.exception) :
  (aborted now results
   ↔ ∃ l1 l2 l3, results = l1 ++ l2 ++ l3
                 ∧ Forall (λ r, is_completed r = false) l2
                 ∧ 100 < failures l2)
  ∧ aborted now (replicate 101 (item, file, IA.RetError err))
  ∧ ¬ aborted now (replicate 100 (item, file, IA.RetError err)).
Proof.
  assert (Hiff : ∀ rs, aborted now rs
    ↔ ∃ l1 l2 l3, rs = l1 ++ l2 ++ l3
                  ∧ Forall (λ r, is_completed r = false) l2
                  ∧ 100 < failures l2).
  { intros rs. unfold aborted. rewrite main_loop_raises by (simpl; lia).
    simpl. split.
    - intros [(l2 & l3 & -> & Hall & Hlt) | Hmid]; [|done].
      by exists [], l2, l3.
    - intros Hmid. by right. }
  split; [apply Hiff|]. split.
  - apply Hiff. exists [], (replicate 101 (item, file, IA.RetError err)), [].
    split; [by rewrite app_nil_r|]. split.
    + by apply Forall_replicate.
    + rewrite failures_replicate_failed by done. lia.
  - rewrite Hiff. intros (l1 & l2 & l3 & Heq & _ & Hlt).
    apply (f_equal failures) in Heq.
    rewrite failures_replicate_failed, !failures_app in Heq by done. lia.
Qed.

(** The loop raises nothing but the circuit-breaker error. *)
Lemma main_loop_raises_breaker now n results t t' err :
  IA.main_loop now n results t = (t', Some err) → err = breaker_error.
Proof.
  revert n t. induction results as [|[[item file] retval] results IH];
    intros n t; simpl; [done|].
  destruct retval as [|[path size md5 time]|e]; simpl;
    unfold IA.check_consecutive; simpl;
    repeat case_match; try (by eauto); intros; by simplify_eq.
Qed.

(** When the loop ends without raising, [total_errors] has counted the
    failures. *)
Lemma main_loop_total now n results t t' :
  IA.main_loop now n results t = (t', None) →
  IA.total_errors t' = IA.total_errors t + failures results.
Proof.
  revert n t. induction results as [|[[item file] retval] results IH];
    intros n t; simpl.
  - intros [= <-]. lia.
  - destruct retval as [|[path size md5 time]|e]; simpl;
      unfold IA.check_consecutive; simpl.
    + intros Hrun. apply IH in Hrun. unfold is_failed; simpl. lia.
    + intros Hrun. apply IH in Hrun. simpl in Hrun. unfold is_failed; simpl. lia.
    + destruct (Nat.ltb _ _); [done|].
      intros Hrun. apply IH in Hrun. simpl in Hrun. unfold is_failed; simpl. lia.
Qed.

(** ** The rows of the audit log *)





(** ** The exit status *)

Lemma pool_loop_results now n yields t :
  IA.pool_loop now n yields t
  = match IA.main_loop now n (results_before yields) t with
    | (t', Some err) => (t', Some err)
    | (t', None) => (t', raised_by yields)
    end.
Proof.
  revert n t. induction yields as [|[r|err] yields IH]; intros n t; simpl; [done| |done].
  destruct (IA.loop_body (now n) t r) as [t1 [err|]]; [done|]. apply IH.
Qed.

Lemma aborted_has_failures now results :
  aborted now results → 0 < failures results.
Proof.
  unfold aborted. intros Hrun.
  apply main_loop_raises in Hrun; [|simpl; lia].
  destruct Hrun as [(l2 & l3 & -> & _ & Hmany) | (l1 & l2 & l3 & -> & _ & Hmany)];
    rewrite ?failures_app; simpl in *; lia.
Qed.

(** C9 (as amended). ia-download.py ends with exit code 0 exactly when
    its loop is given every result without an exception and none of the
    results is a failure; every other run ends with 1. When the loop gets
    to the end of the results, [sys.exit] is called with 1 if at least one
    result is a failure and with 0 otherwise. Otherwise the run ends on an
    exception that nothing catches: that of the circuit breaker, or, the
    circuit breaker not having tripped, the exception the iterator of the
    pool raised (one that left a worker, or one of the listing of an item),
    and this also when no result was a failure. cc-download.py counts no
    failures and calls no [sys.exit]: it ends with status 0 whatever the
    results. *)
Theorem exit_status (now : nat -> string)
    (yields : list (Py.result (string * IA.File * IA.retval)))
    (cc_results : list CC.DownloadResult) :
  match (IA.run now yields).2 with
  | IA.SysExit status =>
      raised_by yields = None
      ∧ status = (if Nat.eqb (failures (results_before yields)) 0 then 0 else 1)%Z
  | IA.Uncaught err =>
      err = breaker_error ∧ aborted now (results_before yields)
      ∨ raised_by yields = Some err ∧ ¬ aborted now (results_before yields)
  end
  ∧ IA.exit_code (IA.run now yields).2
    = match raised_by yields, failures (results_before yields) with
      | None, 0 => 0%Z
      | _, _ => 1%Z
      end
  ∧ (CC.main now cc_results).2 = 0%Z.
Proof.
  split; [|split; [|done]].
  - unfold IA.run, aborted. rewrite pool_loop_results.
    destruct (IA.main_loop now 0 (results_before yields) IA.start)
      as [t [err|]] eqn:Hrun; simpl.
    + left. by rewrite (main_loop_raises_breaker _ _ _ _ _ _ Hrun).
    + destruct (raised_by yields) as [err|]; simpl.
      * right. done.
      * split; [done|]. apply main_loop_total in Hrun. simpl in Hrun. rewrite Hrun.
        by destruct (failures (results_before yields)).
  - unfold IA.run. rewrite pool_loop_results.
    destruct (IA.main_loop now 0 (results_before yields) IA.start)
      as [t [err|]] eqn:Hrun; simpl.
    + assert (Habort : aborted now (results_before yields)).
      { unfold aborted. rewrite Hrun. simpl.
        by rewrite (main_loop_raises_breaker _ _ _ _ _ _ Hrun). }
      apply aborted_has_failures in Habort.
      destruct (raised_by yields); [done|].
      destruct (failures (results_before yields)); [lia|done].
    + destruct (raised_by yields) as [err|]; simpl; [done|].
      apply main_loop_total in Hrun. simpl in Hrun. rewrite Hrun.
      by destruct (failures (results_before yields)).
Qed.

(** C9 (as stated) fails: cc-download.py ends with status 0 on a run whose
    only task failed. *)
Lemma cc_failure_exits_zero :
  cc_is_failed (CC.DownloadError "crawl-data/a.warc.gz" None 0 "No content size") = true
  ∧ (CC.main (λ _, "2024-01-01T00:00:00")
       [CC.DownloadError "crawl-data/a.warc.gz" None 0 "No content size"]).2 = 0%Z.
Proof. split; reflexivity. Qed.

(** The run of the program with a single worker is the loop on what its
    workers and its listings give. *)
Lemma pool_loop_app now n results rest t :
  IA.pool_loop now n (map Py.Return results ++ rest) t
  = match IA.main_loop now n results t with
    | (t', Some err) => (t', Some err)
    | (t', None) => IA.pool_loop now (n + length results) rest t'
    end.
Proof.
  revert n t. induction results as [|r results IH]; intros n t; simpl.
  { by rewrite Nat.add_0_r. }
  destruct (IA.loop_body (now n) t r) as [t1 [err|]]; [done|].
  rewrite IH. by rewrite Nat.add_succ_r.
Qed.

Lemma fake_pool_loop_yields md5_hex session_get pid elapsed now n entries fs t :
  let '(results, raised, fs') :=
    entries_yields md5_hex session_get pid elapsed entries fs in
  match IA.main_loop now n results t with
  | (t', Some err) =>
      (IA.fake_pool_loop md5_hex session_get pid elapsed now n entries fs t).1
      = (t', Some err)
  | (t', None) =>
      IA.fake_pool_loop md5_hex session_get pid elapsed now n entries fs t
      = (t', raised, fs')
      ∧ (raised = None → length results = length entries)
  end.
Proof.
  revert n fs t. induction entries as [|entry entries IH]; intros n fs t; simpl.
  { done. }
  destruct (IA.worker_download_file _ _ _ _ fs entry) as [[r|err] fs1]; simpl; [|done].
  specialize (IH (S n) fs1).
  destruct (entries_yields _ _ _ _ entries fs1) as [[results raised] fs']. simpl.
  destruct (IA.loop_body (now n) t r) as [t1 [err|]]; [done|].
  specialize (IH t1).
  destruct (IA.main_loop now (S n) results t1) as [t' [err|]]; [done|].
  destruct IH as [-> Hlen]. split; [done|]. intros Hnone. by rewrite Hlen.
Qed.

Lemma items_loop_yields md5_hex session_get pid elapsed get_files
    args_filter args_dest args_check_md5 now n identifiers cache fs t :
  (Program.items_loop md5_hex session_get pid elapsed get_files
     args_filter args_dest args_check_md5 now n identifiers cache fs t).1.1
  = IA.pool_loop now n
      (program_yields md5_hex session_get pid elapsed get_files
         args_filter args_dest args_check_md5 identifiers cache fs) t.
Proof.
  revert n cache fs t.
  induction identifiers as [|item identifiers IH]; intros n cache fs t; simpl; [done|].
  destruct (Listing.ia_get_files _ _ _ _ _) as [[[files|err] cache'] slept]; [|done].
  pose proof (fake_pool_loop_yields md5_hex session_get pid elapsed now n
                (Program.entries args_dest args_check_md5 item files) fs t) as Hloop.
  destruct (entries_yields _ _ _ _ _ fs) as [[results raised] fs'].
  assert (Hrun : ∀ rest,
    IA.pool_loop now n (map Py.Return results ++ rest) t
    = match IA.main_loop now n results t with
      | (t', Some err) => (t', Some err)
      | (t', None) => IA.pool_loop now (n + length results) rest t'
      end) by (intros rest; apply pool_loop_app).
  destruct raised as [err|]; rewrite Hrun;
    destruct (IA.main_loop now n results t) as [t' [breaker|]].
  - destruct (IA.fake_pool_loop _ _ _ _ _ _ _ _ _) as [[t1 raised1] fs1].
    simpl in Hloop. by simplify_eq.
  - destruct Hloop as [-> _]. done.
  - destruct (IA.fake_pool_loop _ _ _ _ _ _ _ _ _) as [[t1 raised1] fs1].
    simpl in Hloop. by simplify_eq.
  - destruct Hloop as [-> Hlen]. rewrite Hlen by done.
    unfold Program.entries. rewrite length_map. apply IH.
Qed.

Lemma single_worker_program_is_a_run md5_hex session_get pid elapsed get_files
    args_filter args_dest args_check_md5 now identifiers cache fs :
  (Program.main md5_hex session_get pid elapsed get_files
     args_filter args_dest args_check_md5 now identifiers cache fs).1.1
  = IA.run now
      (program_yields md5_hex session_get pid elapsed get_files
         args_filter args_dest args_check_md5 identifiers cache fs).
Proof.
  unfold Program.main, IA.run.
  rewrite <- (items_loop_yields md5_hex session_get pid elapsed get_files
                args_filter args_dest args_check_md5 now 0 identifiers cache fs IA.start).
  by destruct (Program.items_loop _ _ _ _ _ _ _ _ _ _ _ _ _ _) as [[[t raised] fs'] cache'].
Qed.

(** A run in which no result is a failure and which ends with exit code 1:
    the listing of the item gives up after its five calls. *)
Example listing_failure_exits_one :
  (Program.main MD5.hexdigest abc_session 4242 1 dead_listing "*.warc.gz" "dest" false
     (λ _, "2024-01-01T00:00:00") ["i"] None ∅).1.1
  = ([], IA.Uncaught (Py.Exc "ConnectionError" "Connection aborted."))
  ∧ program_yields MD5.hexdigest abc_session 4242 1 dead_listing "*.warc.gz" "dest" false
      ["i"] None ∅
    = [Py.Raise (Py.Exc "ConnectionError" "Connection aborted.")]
  ∧ IA.exit_code (IA.Uncaught (Py.Exc "ConnectionError" "Connection aborted.")) = 1%Z.
Proof. split; [|split]; vm_compute; reflexivity. Qed.

(** Another: with [--check-md5], the destination of the first file cannot
    be read and the exception leaves the worker (C8). *)
Example worker_exception_exits_one :
  (Program.main MD5.hexdigest abc_session 4242 1 sample_listing "*.warc.gz" "dest" true
     (λ _, "2024-01-01T00:00:00") ["i"] None blocked_disk).1.1
  = ([], IA.Uncaught (Py.Exc "IsADirectoryError"
                        "[Errno 21] Is a directory: 'dest/i/a.warc.gz'"))
  ∧ program_yields MD5.hexdigest abc_session 4242 1 sample_listing "*.warc.gz" "dest" true
      ["i"] None blocked_disk
    = [Py.Raise (Py.Exc "IsADirectoryError"
                   "[Errno 21] Is a directory: 'dest/i/a.warc.gz'")].
Proof. split; vm_compute; reflexivity. Qed.

(** The same item without [--check-md5]: the first file is found present,
    the second is downloaded, and the run exits with 0. *)
Example single_worker_run :
  (Program.main MD5.hexdigest abc_session 4242 1 sample_listing "*.warc.gz" "dest" false
     (λ _, "2024-01-01T00:00:00") ["i"] None blocked_disk).1.1
  = ([Csv.Row "2024-01-01T00:00:00" "i" "abc.warc.gz" (Some "dest/i/abc.warc.gz")
        (Some 3%Z) (Some 1%Z) (Some "900150983cd24fb0d6963f7d28e17f72") None],
     IA.SysExit 0).
Proof. vm_compute. reflexivity. Qed.

(** ** The resumable transfer of cc-download.py *)

Lemma BUFSIZE_pos : 0 < CC.BUFSIZE.
Proof. unfold CC.BUFSIZE. apply Nat.neq_0_lt_0, Nat.pow_nonzero. lia. Qed.

Lemma take_drop_length {A} n (l : list A) : take n l ++ drop (length (take n l)) l = l.
Proof.
  rewrite length_take. destruct (Nat.le_gt_cases n (length l)).
  - rewrite Nat.min_l by done. apply take_drop.
  - rewrite Nat.min_r, take_ge, drop_all by lia. apply app_nil_r.
Qed.

Lemma read_to_end_reads turns f d :
  CC.pos f ≤ length (CC.data f) →
  length (CC.data f) - CC.pos f < turns →
  CC.read_to_end turns f d =
    ({| CC.data := CC.data f; CC.pos := length (CC.data f) |},
     d ++ drop (CC.pos f) (CC.data f)).
Proof.
  revert f d. induction turns as [|turns IH]; intros [data pos] d Hle Hlt;
    [lia|]. simpl in Hle, Hlt.
  cbn [CC.read_to_end CC.read CC.data CC.pos].
  pose proof BUFSIZE_pos as Hbuf. set (rest := drop pos data).
  assert (Hrest : length rest = length data - pos) by apply length_drop.
  case_bool_decide as Hchunk.
  - rewrite Hchunk. rewrite length_take in Hchunk.
    assert (length rest = 0) as Hnil%nil_length_inv by lia.
    rewrite Hnil, app_nil_r. repeat f_equal. lia.
  - assert (Hlen : length (take CC.BUFSIZE rest) ≤ length rest)
      by (rewrite length_take; lia).
    rewrite IH; cbn [CC.data CC.pos]; [|lia..].
    rewrite <- drop_drop. fold rest. by rewrite <- app_assoc, take_drop_length.
Qed.

Lemma read_body_reads fin f d :
  at_end f →
  CC.read_body fin f d =
    (read_error fin,
     {| CC.data := CC.data f ++ received fin;
        CC.pos := length (CC.data f ++ received fin) |},
     d ++ received fin).
Proof.
  revert f d. induction fin as [|[chunk|e] fin IH]; intros [data pos] d Hend;
    unfold at_end in Hend; simpl in *.
  - by rewrite !app_nil_r, Hend.
  - case_bool_decide.
    + by rewrite !app_nil_r, Hend.
    + rewrite IH by done. simpl. by rewrite <- !app_assoc.
  - by rewrite !app_nil_r, Hend.
Qed.

Lemma app_cons_string c (a b : string) : String c a +:+ b = String c (a +:+ b).
Proof. reflexivity. Qed.

Lemma length_app_string (a b : string) :
  String.length (a +:+ b) = String.length a + String.length b.
Proof.
  induction a as [|c a IH]; [done|].
  rewrite app_cons_string. simpl. by rewrite IH.
Qed.

Lemma hidden_name_differs (s : string) : "." +:+ s ≠ s.
Proof.
  intros Heq. apply (f_equal String.length) in Heq.
  rewrite length_app_string in Heq. simpl in Heq. lia.
Qed.

Section ResumableTransfer.

Context (md5_hex : list byte -> string).
Context (urlopen : nat -> CC.Request -> Py.result CC.HTTPResponse).

(** What the attempts add to a transfer whose handle stands at the end of
    the temp file: bytes at the end of the file, fed to the digest as well,
    and requests that each start at the length the file has at the time. *)
Lemma attempts_spec path remaining attempt st exit st' :
  CC.attempts urlopen path remaining attempt st = (exit, st') →
  sound st →
  sound st'
  ∧ (∃ more, CC.data (CC.ftemp st') = CC.data (CC.ftemp st) ++ more)
  ∧ ∃ new, CC.sent st' = CC.sent st ++ new
      ∧ length new ≤ remaining
      ∧ Forall (λ s, CC.range_start s.1 = s.2
                     ∧ (Z.of_nat (length (CC.data (CC.ftemp st))) ≤ s.2)%Z) new
      ∧ StronglySorted Z.le (map (λ s, CC.range_start s.1) new)
      ∧ match exit with
        | CC.Complete total =>
            CC.size st' = Some total
            ∧ Z.of_nat (length (CC.data (CC.ftemp st'))) = total
            ∧ ∃ req len fin,
                last new = Some (req, len)
                ∧ urlopen (attempt + length new) req = Py.Return fin
                ∧ CC.get_content_length fin = Py.Return total
        | CC.Exhausted => length new = remaining
        | CC.Raised _ => True
        end.
Proof.
  revert attempt st. induction remaining as [|remaining IH];
    intros attempt st Hrun [Hend Hdig].
  { simpl in Hrun. injection Hrun as <- <-.
    split; [done|]. split; [by exists []; rewrite app_nil_r|].
    exists []. rewrite app_nil_r. repeat split; try done; constructor. }
  simpl in Hrun.
  set (request := {| CC.full_url := _; CC.range_start := _ |}) in Hrun.
  set (len := Z.of_nat (length (CC.data (CC.ftemp st)))) in *.
  assert (Hstart : CC.range_start request = len).
  { unfold request, len, CC.tell. simpl. by rewrite Hend. }
  assert (Hone : Forall (λ s : CC.Request * Z, CC.range_start s.1 = s.2
                     ∧ (len ≤ s.2)%Z) [(request, len)]).
  { repeat constructor; simpl; [done | lia]. }
  assert (Hsorted1 : StronglySorted Z.le
            (map (λ s : CC.Request * Z, CC.range_start s.1) [(request, len)])).
  { repeat constructor. }
  destruct (urlopen (S attempt) request) as [fin|e] eqn:Hopen.
  2:{ injection Hrun as <- <-. simpl.
      split; [done|]. split; [by exists []; rewrite app_nil_r|].
      exists [(request, len)]. simpl. repeat split; try done; lia. }
  destruct (CC.get_content_length fin) as [total|e] eqn:Htotal.
  2:{ injection Hrun as <- <-. simpl.
      split; [done|]. split; [by exists []; rewrite app_nil_r|].
      exists [(request, len)]. simpl. repeat split; try done; lia. }
  simpl in Hrun. rewrite read_body_reads in Hrun by done.
  set (st1 := {| CC.ftemp := _; CC.digest := _; CC.size := Some total; CC.sent := _ |}) in Hrun.
  assert (Hsound1 : sound st1).
  { split; [done|]. simpl. by rewrite Hdig. }
  destruct (read_error (CC.body fin)) as [e|] eqn:Herr.
  { injection Hrun as <- <-.
    split; [done|]. split; [by eexists|].
    exists [(request, len)]. simpl. repeat split; try done; lia. }
  unfold CC.tell in Hrun. simpl in Hrun.
  destruct (Z.ltb _ total) eqn:Hless.
  - apply IH in Hrun as (Hsound' & [more' Hmore] & new' & Hsent & Hcount & Hall & Hsorted & Hexit);
      [|done].
    split; [done|]. split.
    { exists (received (CC.body fin) ++ more'). rewrite Hmore. simpl. by rewrite app_assoc. }
    assert (Hall' : Forall (λ s : CC.Request * Z, CC.range_start s.1 = s.2
                     ∧ (len ≤ s.2)%Z) new').
    { eapply Forall_impl; [exact Hall|]. simpl. intros s [? Hle]. split; [done|].
      rewrite length_app in Hle. unfold len. lia. }
    exists ((request, len) :: new'). split; [|split; [|split; [|split]]].
    + rewrite Hsent. simpl. by rewrite <- app_assoc.
    + simpl. lia.
    + by constructor.
    + simpl. constructor; [done|].
      change (CC.tell (CC.ftemp st)) with (CC.range_start request).
      rewrite Hstart. apply Forall_map. eapply Forall_impl; [exact Hall'|].
      simpl. intros s [-> ?]. done.
    + destruct exit as [total'|e|]; [|done|simpl; lia].
      destruct Hexit as (Hsize & Hlength & req & len' & fin' & Hlast & Hopen' & Htotal').
      split; [done|]. split; [done|]. exists req, len', fin'.
      split; [|split; [|done]].
      * destruct new' as [|s new']; [done|]. by rewrite last_cons, Hlast.
      * simpl. by rewrite <- Nat.add_succ_comm.
  - destruct (Z.gtb _ total) eqn:Hmore.
    + injection Hrun as <- <-.
      split; [done|]. split; [by eexists|].
      exists [(request, len)]. simpl. repeat split; try done; lia.
    + injection Hrun as <- <-.
      split; [done|]. split; [by eexists|].
      exists [(request, len)]. simpl. repeat split; try done; try lia.
      exists request, len, fin. rewrite Nat.add_1_r. done.
Qed.

Lemma resumed_sound content : sound (resumed content).
Proof. done. Qed.

(** [download_warc] once the destination is known to be absent and the
    temp file is open. *)
Lemma download_warc_open fs fs1 content elapsed path :
  FS.path_exists fs (Py.basename path) = false →
  FS.open_append fs ("." +:+ Py.basename path) = Py.Return (fs1, content) →
  CC.download_warc md5_hex urlopen fs elapsed path =
    let '(exit, st) := CC.attempts urlopen path CC.MAX_ATTEMPTS 0 (resumed content) in
    let fs2 := <["." +:+ Py.basename path := FS.File (CC.data (CC.ftemp st))]> fs1 in
    match exit with
    | CC.Complete total =>
        match FS.rename fs2 ("." +:+ Py.basename path) (Py.basename path) with
        | Py.Return fs3 =>
            {| CC.result := CC.FileDownloaded path total elapsed (md5_hex (CC.digest st));
               CC.disk := fs3; CC.requests := CC.sent st |}
        | Py.Raise err =>
            {| CC.result := CC.DownloadError path (CC.size st) elapsed (Py.exc_str err);
               CC.disk := fs2; CC.requests := CC.sent st |}
        end
    | CC.Raised err =>
        {| CC.result := CC.DownloadError path (CC.size st) elapsed (Py.exc_str err);
           CC.disk := fs2; CC.requests := CC.sent st |}
    | CC.Exhausted =>
        {| CC.result :=
             CC.DownloadError path (CC.size st) elapsed
               ("Downloaded not enough: " +:+ Py.str_int (CC.tell (CC.ftemp st))
                +:+ " < " +:+ Py.str_opt_int (CC.size st));
           CC.disk := fs2; CC.requests := CC.sent st |}
    end.
Proof.
  intros Habsent Hopen. unfold CC.download_warc. rewrite Habsent, Hopen.
  unfold CC.seek_start.
  rewrite read_to_end_reads by (cbn [CC.data CC.pos]; lia).
  cbn [CC.data CC.pos drop app]. reflexivity.
Qed.

(** What opening the temp file gives: the bytes of the file, none when it
    is created, and a file system that differs at most at the temp name. *)
Lemma open_append_content fs temp fs1 content :
  FS.open_append fs temp = Py.Return (fs1, content) →
  Z.of_nat (length content) = FS.file_length fs temp
  ∧ ∀ other, other ≠ temp → fs1 !! other = fs !! other.
Proof.
  unfold FS.open_append, FS.file_length.
  destruct (fs !! temp) as [[bytes|]|] eqn:Hlook; intros Hopen; simplify_eq.
  - done.
  - split; [done|]. intros other Hne. by rewrite lookup_insert_ne.
Qed.

Lemma open_append_fails fs temp err :
  FS.open_append fs temp = Py.Raise err → fs !! temp = Some FS.Dir.
Proof.
  unfold FS.open_append. by destruct (fs !! temp) as [[bytes|]|].
Qed.

(** The requests of a transfer, each with the byte length of the temp file
    when it is sent: the request starts at that length, the length is at
    least what the temp file held at the start, and the starts never go
    down. *)
Lemma download_warc_requests fs elapsed path :
  Forall (λ s, CC.range_start s.1 = s.2
               ∧ (FS.file_length fs ("." +:+ Py.basename path) ≤ s.2)%Z)
    (CC.requests (CC.download_warc md5_hex urlopen fs elapsed path))
  ∧ StronglySorted Z.le
      (map (λ s, CC.range_start s.1)
         (CC.requests (CC.download_warc md5_hex urlopen fs elapsed path)))
  ∧ length (CC.requests (CC.download_warc md5_hex urlopen fs elapsed path))
    ≤ CC.MAX_ATTEMPTS.
Proof.
  destruct (FS.path_exists fs (Py.basename path)) eqn:Habsent.
  { unfold CC.download_warc. rewrite Habsent. simpl.
    repeat split; [done | constructor | lia]. }
  destruct (FS.open_append fs ("." +:+ Py.basename path)) as [[fs1 content]|err] eqn:Hopen.
  2:{ unfold CC.download_warc. rewrite Habsent, Hopen. simpl.
      repeat split; [done | constructor | lia]. }
  rewrite (download_warc_open _ _ _ _ _ Habsent Hopen).
  apply open_append_content in Hopen as [Hcontent _].
  destruct (CC.attempts _ _ _ _ _) as [exit st] eqn:Hrun.
  apply attempts_spec in Hrun as (_ & _ & new & Hsent & Hcount & Hall & Hsorted & _);
    [|apply resumed_sound].
  simpl in Hsent, Hall. rewrite Hcontent in Hall.
  assert (Hreq : CC.sent st = new) by done.
  destruct exit as [total|err|]; simpl; [destruct (FS.rename _ _ _)|..]; simpl;
    by rewrite Hreq.
Qed.

Lemma attempts_truncated path remaining attempt st :
  sound st →
  always_truncated urlopen path remaining attempt
    (Z.of_nat (length (CC.data (CC.ftemp st)))) = true →
  ∃ st', CC.attempts urlopen path remaining attempt st = (CC.Exhausted, st')
    ∧ (remaining = 0 → st' = st)
    ∧ (0 < remaining →
       ∃ total, CC.size st' = Some total
                ∧ (Z.of_nat (length (CC.data (CC.ftemp st'))) < total)%Z).
Proof.
  revert attempt st. induction remaining as [|remaining IH];
    intros attempt st [Hend Hdig] Htrunc.
  { exists st. simpl. split; [done|]. split; [done | lia]. }
  simpl in Htrunc |- *. unfold CC.tell. rewrite Hend.
  destruct (urlopen _ _) as [fin|e]; [|done].
  destruct (CC.get_content_length fin) as [total|e]; [|done].
  rewrite read_body_reads by done.
  destruct (read_error (CC.body fin)) as [e|]; [done|].
  apply andb_prop in Htrunc as [Hless Htrunc]. simpl.
  rewrite length_app, Nat2Z.inj_add, Hless.
  set (st1 := {| CC.ftemp := _; CC.digest := _; CC.size := Some total; CC.sent := _ |}).
  destruct (IH (S attempt) st1) as (st' & Hrun & Hzero & Hpos).
  { split; [|simpl; by rewrite Hdig]. unfold at_end. simpl. by rewrite length_app. }
  { simpl. by rewrite length_app, Nat2Z.inj_add. }
  exists st'. split; [done|]. split; [lia|]. intros _.
  destruct remaining as [|remaining].
  - rewrite Hzero by done. exists total. split; [done|]. simpl.
    rewrite length_app, Nat2Z.inj_add. by apply Z.ltb_lt.
  - apply Hpos. lia.
Qed.

(** A transfer that ends with [FileDownloaded]: the size reported is the
    total that the response to the last request advertises, the file at
    the destination has that many bytes, the checksum reported is the MD5
    of those bytes, and the temp name is free again. *)
Lemma download_warc_completed fs elapsed path p size time md5 :
  CC.result (CC.download_warc md5_hex urlopen fs elapsed path)
    = CC.FileDownloaded p size time md5 →
  p = path
  ∧ (∃ request len fin,
       last (CC.requests (CC.download_warc md5_hex urlopen fs elapsed path))
         = Some (request, len)
       ∧ urlopen (length (CC.requests (CC.download_warc md5_hex urlopen fs elapsed path)))
           request = Py.Return fin
       ∧ CC.get_content_length fin = Py.Return size)
  ∧ (∃ content,
       CC.disk (CC.download_warc md5_hex urlopen fs elapsed path) !! Py.basename path
         = Some (FS.File content)
       ∧ Z.of_nat (length content) = size
       ∧ md5 = md5_hex content)
  ∧ CC.disk (CC.download_warc md5_hex urlopen fs elapsed path)
      !! ("." +:+ Py.basename path) = None.
Proof.
  destruct (FS.path_exists fs (Py.basename path)) eqn:Habsent.
  { unfold CC.download_warc. by rewrite Habsent. }
  destruct (FS.open_append fs ("." +:+ Py.basename path)) as [[fs1 content]|err] eqn:Hopen.
  2:{ unfold CC.download_warc. by rewrite Habsent, Hopen. }
  rewrite (download_warc_open _ _ _ _ _ Habsent Hopen).
  apply open_append_content in Hopen as [_ Hother].
  destruct (CC.attempts _ _ _ _ _) as [exit st] eqn:Hrun.
  apply attempts_spec in Hrun as ([_ Hdig] & _ & new & Hsent & _ & _ & _ & Hexit);
    [|apply resumed_sound].
  assert (Hreq : CC.sent st = new) by done.
  destruct exit as [total|err|]; simpl; [|done..].
  destruct Hexit as (_ & Hlength & request & len & fin & Hlast & Hanswer & Htotal).
  pose proof (hidden_name_differs (Py.basename path)) as Hne.
  unfold FS.rename. rewrite lookup_insert_eq, lookup_insert_ne by done.
  rewrite Hother by done. unfold FS.path_exists in Habsent.
  destruct (fs !! Py.basename path); [done|]. simpl.
  intros [= <- <- <- <-]. split; [done|]. rewrite Hreq. split; [|split].
  - by exists request, len, fin.
  - exists (CC.data (CC.ftemp st)). rewrite lookup_insert_eq, Hdig. done.
  - by rewrite lookup_insert_ne, lookup_delete_eq.
Qed.

End ResumableTransfer.

(** C6. In resumable mode every range request of a transfer starts at the
    byte length the temp file has when the request is sent ([s.2] below),
    that length is never less than the length [L] the temp file had when
    the transfer began (0 when there was no temp file), and the starts of
    the successive requests never decrease. *)
Theorem range_requests_resume (md5_hex : list byte -> string)
    (urlopen : nat -> CC.Request -> Py.result CC.HTTPResponse)
    (fs : FS.t) (elapsed : Z) (path : string) :
  Forall (λ s, CC.range_start s.1 = s.2
               ∧ CC.range_header s.1 = "bytes=" +:+ Py.str_int s.2 +:+ "-"
               ∧ (FS.file_length fs ("." +:+ Py.basename path) ≤ CC.range_start s.1)%Z)
    (CC.requests (CC.download_warc md5_hex urlopen fs elapsed path))
  ∧ StronglySorted Z.le
      (map (λ s, CC.range_start s.1)
         (CC.requests (CC.download_warc md5_hex urlopen fs elapsed path))).
Proof.
  destruct (download_warc_requests md5_hex urlopen fs elapsed path)
    as (Hall & Hsorted & _).
  split; [|done]. eapply Forall_impl; [exact Hall|].
  simpl. intros [request len] [Hstart Hle]. simpl in *.
  unfold CC.range_header. rewrite Hstart. done.
Qed.

(** C5. In resumable mode, when the destination is absent, the temp file
    can be opened, and each of the [MAX_ATTEMPTS] = 10 attempts is answered
    by a response whose body ends with the temp file still short of the
    advertised total, the task sends exactly 10 requests and returns one
    [DownloadError], with the message of the exhausted attempts; the temp
    file stays on disk with the bytes received and nothing appears at the
    destination. *)
Theorem truncated_transfer_exhausts (md5_hex : list byte -> string)
    (urlopen : nat -> CC.Request -> Py.result CC.HTTPResponse)
    (fs : FS.t) (elapsed : Z) (path : string) :
  FS.path_exists fs (Py.basename path) = false →
  fs !! ("." +:+ Py.basename path) ≠ Some FS.Dir →
  always_truncated urlopen path CC.MAX_ATTEMPTS 0
    (FS.file_length fs ("." +:+ Py.basename path)) = true →
  ∃ tell total,
    CC.result (CC.download_warc md5_hex urlopen fs elapsed path)
      = CC.DownloadError path (Some total) elapsed
          ("Downloaded not enough: " +:+ Py.str_int tell +:+ " < " +:+ Py.str_int total)
    ∧ (tell < total)%Z
    ∧ length (CC.requests (CC.download_warc md5_hex urlopen fs elapsed path))
      = CC.MAX_ATTEMPTS
    ∧ FS.file_length (CC.disk (CC.download_warc md5_hex urlopen fs elapsed path))
        ("." +:+ Py.basename path) = tell
    ∧ FS.path_exists (CC.disk (CC.download_warc md5_hex urlopen fs elapsed path))
        (Py.basename path) = false.
Proof.
  intros Habsent Hfile Htrunc.
  destruct (FS.open_append fs ("." +:+ Py.basename path)) as [[fs1 content]|err] eqn:Hopen.
  2:{ by apply open_append_fails in Hopen. }
  rewrite (download_warc_open _ _ _ _ _ _ _ Habsent Hopen).
  apply open_append_content in Hopen as [Hcontent Hother].
  rewrite <- Hcontent in Htrunc.
  destruct (attempts_truncated urlopen path CC.MAX_ATTEMPTS 0 (resumed content))
    as (st & Hrun & _ & Hshort); [apply resumed_sound | done |].
  destruct Hshort as (total & Hsize & Hless); [unfold CC.MAX_ATTEMPTS; lia|].
  rewrite Hrun.
  apply attempts_spec in Hrun as ([Hend _] & _ & new & Hsent & _ & _ & _ & Hcount);
    [|apply resumed_sound].
  exists (Z.of_nat (length (CC.data (CC.ftemp st)))), total.
  cbn [CC.result CC.requests CC.disk]. unfold CC.tell.
  rewrite Hend, Hsize. repeat split.
  - done.
  - rewrite Hsent. done.
  - unfold FS.file_length. by rewrite lookup_insert_eq.
  - unfold FS.path_exists in *.
    rewrite lookup_insert_ne by apply hidden_name_differs.
    by rewrite Hother by (apply not_eq_sym, hidden_name_differs).
Qed.

(** The transfer against [stalling_server], from an empty disk. *)
Lemma truncated_transfer_exhausts_witness :
  ∃ tell total,
    CC.result (CC.download_warc MD5.hexdigest stalling_server ∅ 7
                 "crawl-data/CC-MAIN-2024-10/a.warc.gz")
      = CC.DownloadError "crawl-data/CC-MAIN-2024-10/a.warc.gz" (Some total) 7
          ("Downloaded not enough: " +:+ Py.str_int tell +:+ " < " +:+ Py.str_int total)
    ∧ (tell < total)%Z
    ∧ length (CC.requests (CC.download_warc MD5.hexdigest stalling_server ∅ 7
                             "crawl-data/CC-MAIN-2024-10/a.warc.gz"))
      = CC.MAX_ATTEMPTS
    ∧ FS.file_length (CC.disk (CC.download_warc MD5.hexdigest stalling_server ∅ 7
                                 "crawl-data/CC-MAIN-2024-10/a.warc.gz"))
        ("." +:+ Py.basename "crawl-data/CC-MAIN-2024-10/a.warc.gz") = tell
    ∧ FS.path_exists (CC.disk (CC.download_warc MD5.hexdigest stalling_server ∅ 7
                                 "crawl-data/CC-MAIN-2024-10/a.warc.gz"))
        (Py.basename "crawl-data/CC-MAIN-2024-10/a.warc.gz") = false.
Proof.
  apply (truncated_transfer_exhausts MD5.hexdigest stalling_server ∅ 7
           "crawl-data/CC-MAIN-2024-10/a.warc.gz").
  - reflexivity.
  - by vm_compute.
  - vm_compute. reflexivity.
Defined.

Example stalled_transfer_result :
  CC.result (CC.download_warc MD5.hexdigest stalling_server ∅ 7
               "crawl-data/CC-MAIN-2024-10/a.warc.gz")
  = CC.DownloadError "crawl-data/CC-MAIN-2024-10/a.warc.gz" (Some 100%Z) 7
      "Downloaded not enough: 30 < 100".
Proof. vm_compute. reflexivity. Qed.

(** ** Paths: the temporary name of ia-download.py is not the destination *)

Lemma no_slash_app a b : no_slash (a +:+ b) = no_slash a && no_slash b.
Proof.
  induction a as [|c a IH]; [done|].
  rewrite app_cons_string. simpl. by rewrite IH, andb_assoc.
Qed.

Lemma app_assoc_string (a b c : string) : (a +:+ b) +:+ c = a +:+ b +:+ c.
Proof.
  induction a as [|x a IH]; [done|]. rewrite !app_cons_string. by rewrite IH.
Qed.

Lemma split_tail_no_slash p : no_slash (Py.split_at_last_slash p).2 = true.
Proof.
  induction p as [|c p IH]; [done|]. simpl.
  destruct (Py.split_at_last_slash p) as [[|h0 h] t]; simpl in *.
  - destruct (Ascii.eqb c "/") eqn:Hc; simpl; [done|]. by rewrite Hc.
  - done.
Qed.

Lemma split_no_slash x : no_slash x = true → Py.split_at_last_slash x = ("", x).
Proof.
  induction x as [|c x IH]; [done|]. simpl.
  intros [Hc Hx]%andb_prop. rewrite IH by done.
  apply negb_true_iff in Hc. by rewrite Hc.
Qed.

Lemma split_after_slash a x :
  Py.ends_with_slash a = true → no_slash x = true →
  ∃ h, h ≠ "" ∧ Py.split_at_last_slash (a +:+ x) = (h, x).
Proof.
  intros Ha Hx. induction a as [|c a IH]; [done|].
  rewrite app_cons_string. destruct a as [|c' a].
  - simpl in Ha. change ("" +:+ x) with x. simpl.
    rewrite split_no_slash, Ha by done. by exists (String c "").
  - destruct IH as (h & Hh & Hsplit); [done|].
    cbn [Py.split_at_last_slash]. rewrite Hsplit.
    destruct h as [|h0 h]; [done|]. by exists (String c (String h0 h)).
Qed.

Lemma ends_with_slash_app a : Py.ends_with_slash (a +:+ "/") = true.
Proof.
  induction a as [|c a IH]; [done|]. rewrite app_cons_string.
  destruct a as [|c' a]; [done|]. rewrite app_cons_string in *. exact IH.
Qed.

Lemma basename_join d x :
  no_slash x = true → x ≠ "" → Py.basename (Py.path_join d x) = x.
Proof.
  intros Hx Hne. unfold Py.basename, Py.path_join.
  assert (Hstart : Py.starts_with_slash x = false).
  { destruct x as [|c x]; [done|]. simpl in *.
    apply andb_prop in Hx as [Hc _]. by apply negb_true_iff in Hc. }
  rewrite Hstart. destruct d as [|c d].
  { by rewrite split_no_slash. }
  destruct (Py.ends_with_slash (String c d)) eqn:Hend.
  - by destruct (split_after_slash _ _ Hend Hx) as (h & _ & ->).
  - rewrite <- app_assoc_string.
    by destruct (split_after_slash _ _ (ends_with_slash_app (String c d)) Hx)
      as (h & _ & ->).
Qed.

Lemma uint_no_slash d : no_slash (NilEmpty.string_of_uint d) = true.
Proof. induction d; simpl; done. Qed.

Lemma str_int_no_slash z : no_slash (Py.str_int z) = true.
Proof.
  unfold Py.str_int, NilZero.string_of_int.
  destruct (Z.to_int z) as [d|d]; unfold NilZero.string_of_uint;
    destruct d; simpl; try done; apply uint_no_slash.
Qed.

Lemma temp_path_differs pid file_path : IA.temp_path_of pid file_path ≠ file_path.
Proof.
  unfold IA.temp_path_of, Py.path_split.
  destruct (Py.split_at_last_slash file_path) as [head tail] eqn:Hsplit.
  intros Heq. apply (f_equal Py.basename) in Heq.
  rewrite basename_join in Heq.
  - unfold Py.basename in Heq. rewrite Hsplit in Heq. simpl in Heq.
    apply (f_equal String.length) in Heq.
    rewrite !length_app_string in Heq. simpl in Heq. lia.
  - pose proof (split_tail_no_slash file_path) as Htail.
    rewrite Hsplit in Htail. simpl in Htail.
    by rewrite !no_slash_app, Htail, str_int_no_slash.
  - done.
Qed.

Lemma split_after_slash_exact a x :
  Py.ends_with_slash a = true → no_slash x = true →
  Py.split_at_last_slash (a +:+ x) = (a, x).
Proof.
  intros Ha Hx. induction a as [|c a IH]; [done|].
  rewrite app_cons_string. destruct a as [|c' a].
  - simpl in Ha. change ("" +:+ x) with x. simpl.
    by rewrite split_no_slash, Ha.
  - cbn [Py.split_at_last_slash]. by rewrite IH.
Qed.

Lemma rstrip_slash_no_trailing s : Py.ends_with_slash (Py.rstrip_slash s) = false.
Proof.
  induction s as [|c s IH]; [done|]. simpl.
  destruct (Py.rstrip_slash s) as [|c' s'] eqn:Hs.
  - destruct (Ascii.eqb c "/") eqn:Hc; [done|]. simpl. exact Hc.
  - exact IH.
Qed.

Lemma rstrip_slash_app_slash s :
  Py.ends_with_slash s = false → s ≠ "" →
  Py.rstrip_slash (s +:+ "/") = s ∧ Py.all_slashes (s +:+ "/") = false.
Proof.
  induction s as [|c s IH]; [done|]. intros Hend _.
  rewrite app_cons_string. destruct s as [|c' s].
  - change ("" +:+ "/") with "/". simpl in *. by rewrite Hend.
  - destruct IH as [Hstrip Hall]; [done..|].
    remember (String c' s +:+ "/") as y eqn:Hy. clear Hy.
    simpl. by rewrite Hstrip, Hall, andb_false_r.
Qed.

(** [os.path.split] of a name joined to a directory that [os.path.split]
    gave. *)
Lemma path_split_join d x :
  Py.all_slashes d = true ∨ Py.ends_with_slash d = false →
  no_slash x = true → x ≠ "" →
  Py.path_split (Py.path_join d x) = (d, x).
Proof.
  intros Hd Hx Hne. unfold Py.path_split, Py.path_join.
  assert (Hstart : Py.starts_with_slash x = false).
  { destruct x as [|c x]; [done|]. simpl in *.
    apply andb_prop in Hx as [Hc _]. by apply negb_true_iff in Hc. }
  rewrite Hstart. destruct d as [|c d].
  { by rewrite split_no_slash. }
  destruct (Py.ends_with_slash (String c d)) eqn:Hend.
  - rewrite split_after_slash_exact by done.
    destruct Hd as [-> | ?]; done.
  - rewrite <- app_assoc_string.
    rewrite split_after_slash_exact by (done || apply ends_with_slash_app).
    destruct (rstrip_slash_app_slash (String c d)) as [-> ->]; done.
Qed.

Lemma path_split_head p :
  Py.all_slashes (Py.path_split p).1 = true
  ∨ Py.ends_with_slash (Py.path_split p).1 = false.
Proof.
  unfold Py.path_split. destruct (Py.split_at_last_slash p) as [head tail]. simpl.
  destruct (Py.all_slashes head) eqn:Hall; [by left|].
  right. apply rstrip_slash_no_trailing.
Qed.

(** The temp name is an entry of the directory of the destination. *)
Lemma temp_path_split pid path :
  Py.path_split (IA.temp_path_of pid path)
  = ((Py.path_split path).1, "." +:+ Py.basename path +:+ "~" +:+ Py.str_int pid).
Proof.
  unfold IA.temp_path_of, Py.basename.
  pose proof (path_split_head path) as Hhead.
  pose proof (split_tail_no_slash path) as Htail.
  unfold Py.path_split in *.
  destruct (Py.split_at_last_slash path) as [head tail]. simpl in *.
  apply path_split_join; [done| |done].
  by rewrite !no_slash_app, Htail, str_int_no_slash.
Qed.

Lemma temp_path_dir_above fs pid path :
  FS.dir_above fs (IA.temp_path_of pid path) = FS.dir_above fs path.
Proof. unfold FS.dir_above. by rewrite temp_path_split. Qed.

(** ** The full-body transfer of ia-download.py *)

Lemma write_chunks_spec content fout size digest :
  IA.write_chunks content fout size digest =
    (stream_error content, fout ++ streamed content,
     (size + Z.of_nat (length (streamed content)))%Z,
     digest ++ streamed content).
Proof.
  revert fout size digest.
  induction content as [|[chunk|e] content IH]; intros fout size digest; simpl.
  - by rewrite !app_nil_r, Z.add_0_r.
  - by rewrite IH, length_app, Nat2Z.inj_add, <- !app_assoc, Z.add_assoc.
  - by rewrite !app_nil_r, Z.add_0_r.
Qed.

Lemma read_chunks_reads turns buffering rest digest :
  0 < buffering → length rest < turns →
  IA.read_chunks turns buffering rest digest = digest ++ rest.
Proof.
  intros Hbuf. revert rest digest.
  induction turns as [|turns IH]; intros rest digest Hlt; [lia|]. simpl.
  case_bool_decide as Hchunk.
  - rewrite length_take in Hchunk.
    assert (length rest = 0) as ->%nil_length_inv by lia. by rewrite app_nil_r.
  - rewrite length_take in Hchunk.
    rewrite IH by (rewrite length_drop; lia).
    by rewrite <- app_assoc, take_drop.
Qed.

Section FullBodyTransfer.

Context (md5_hex : list byte -> string).
Context (session_get : string -> Py.result IA.Response).
Context (pid : Z) (elapsed : Z).

(** [compute_md5] is the MD5 of the file it reads. *)
Lemma compute_md5_reads fs path content :
  fs !! path = Some (FS.File content) →
  IA.compute_md5 md5_hex fs path = Py.Return (md5_hex content).
Proof.
  intros Hfile. unfold IA.compute_md5, FS.open_read. rewrite Hfile.
  cbn [mbind result_bind Py.bind mret result_ret].
  rewrite read_chunks_reads; [done | | lia].
  apply Nat.neq_0_lt_0, Nat.pow_nonzero. lia.
Qed.

(** A transfer that returns a [Download]: the response was fine and read
    to its end, the bytes received are the file at the destination, the
    size reported is their count, the checksum reported is their MD5 and
    is the checksum expected, and the temp file is gone. *)
Lemma download_file_completed fs file file_path d fs' :
  IA.download_file md5_hex session_get pid elapsed fs file file_path
    = (Py.Return d, fs') →
  ∃ response,
    session_get (IA.url file) = Py.Return response
    ∧ IA.ok response = true
    ∧ stream_error (IA.content response) = None
    ∧ d = IA.mkDownload file_path
            (Z.of_nat (length (streamed (IA.content response))))
            (md5_hex (streamed (IA.content response))) elapsed
    ∧ md5_hex (streamed (IA.content response)) = IA.md5 file
    ∧ fs' !! file_path = Some (FS.File (streamed (IA.content response)))
    ∧ fs' !! IA.temp_path_of pid file_path = None.
Proof.
  unfold IA.download_file.
  pose proof (temp_path_differs pid file_path) as Hne.
  set (temp_path := IA.temp_path_of pid file_path) in *.
  destruct (session_get (IA.url file)) as [response|err]; [|done].
  destruct (IA.ok response) eqn:Hok; simpl; [|done].
  assert (Hfinally : ∀ (err : Py.exception) (fs0 : FS.t),
    (let '(cleanup, fs1) :=
       if FS.path_exists fs0 temp_path then
         match FS.unlink fs0 temp_path with
         | Py.Raise e => (Py.Raise e, fs0)
         | Py.Return fs1 => (Py.Return (), fs1)
         end
       else (Py.Return (), fs0) in
     match cleanup, @Py.Raise (Z * list byte) err with
     | Py.Raise e, _ => (Py.Raise e, fs1)
     | Py.Return _, Py.Raise e => (Py.Raise e, fs1)
     | Py.Return _, Py.Return (size, digest) =>
         (Py.Return (IA.mkDownload file_path size (md5_hex digest) elapsed), fs1)
     end) ≠ (Py.Return d, fs')).
  { intros err fs0. destruct (FS.path_exists fs0 temp_path); [|done].
    by destruct (FS.unlink fs0 temp_path). }
  destruct (FS.open_write fs temp_path) as [fs1|err] eqn:Hopen.
  2:{ intros Hrun. by apply Hfinally in Hrun. }
  rewrite write_chunks_spec. simpl.
  destruct (stream_error (IA.content response)) as [err|] eqn:Herr.
  { intros Hrun. by apply Hfinally in Hrun. }
  destruct (String.eqb _ (IA.md5 file)) eqn:Hsum; simpl.
  2:{ intros Hrun. by apply Hfinally in Hrun. }
  apply String.eqb_eq in Hsum.
  unfold FS.rename. rewrite lookup_insert_eq.
  destruct (<[temp_path := _]> fs1 !! file_path) as [[other|]|] eqn:Hdest.
  2:{ intros Hrun. by apply Hfinally in Hrun. }
  all: unfold FS.path_exists;
    rewrite lookup_insert_ne, lookup_delete_eq by done;
    intros [= <- <-]; exists response;
    rewrite lookup_insert_eq, lookup_insert_ne, lookup_delete_eq by done;
    done.
Qed.

End FullBodyTransfer.

(** C7. In full-body mode, when the response is read to its end and the
    checksum computed over the body differs from the checksum expected,
    [download_file] raises [DownloadError('md5 mismatch')], the temp file
    has been deleted and there is no file at the destination. The
    destination is absent when the transfer starts (the worker calls
    [download_file] only under [if not os.path.exists(file_path)]) and the
    temp file can be opened: the directory of the destination is there and
    the temp path is no directory. *)
Theorem checksum_mismatch_cleans_up (md5_hex : list byte -> string)
    (session_get : string -> Py.result IA.Response) (pid elapsed : Z)
    (fs : FS.t) (file : IA.File) (file_path : string) (response : IA.Response) :
  session_get (IA.url file) = Py.Return response →
  IA.ok response = true →
  stream_error (IA.content response) = None →
  md5_hex (streamed (IA.content response)) ≠ IA.md5 file →
  fs !! file_path = None →
  FS.dir_above fs file_path = Some FS.Dir →
  fs !! IA.temp_path_of pid file_path ≠ Some FS.Dir →
  ∃ fs',
    IA.download_file md5_hex session_get pid elapsed fs file file_path
      = (Py.Raise (Py.Exc "DownloadError" "md5 mismatch"), fs')
    ∧ fs' !! IA.temp_path_of pid file_path = None
    ∧ fs' !! file_path = None.
Proof.
  intros Hget Hok Hread Hsum Habsent Hdir Htemp.
  pose proof (temp_path_differs pid file_path) as Hne.
  pose proof (temp_path_dir_above fs pid file_path) as Habove.
  unfold IA.download_file. rewrite Hget, Hok. simpl.
  set (temp_path := IA.temp_path_of pid file_path) in *.
  assert (Hopen : FS.open_write fs temp_path = Py.Return (<[temp_path := FS.File []]> fs)).
  { unfold FS.open_write. rewrite Habove, Hdir.
    by destruct (fs !! temp_path) as [[other|]|]. }
  rewrite Hopen, write_chunks_spec, Hread. simpl.
  apply String.eqb_neq in Hsum. rewrite Hsum. simpl.
  unfold FS.path_exists, FS.unlink. rewrite lookup_insert_eq.
  eexists. split; [reflexivity|]. split.
  - by rewrite lookup_delete_eq.
  - by rewrite lookup_delete_ne, !lookup_insert_ne by done.
Qed.

(** The transfer of [sample_file], expected checksum ["abc123"], from a
    server that sends [abc], into the directory of the item. *)
Lemma checksum_mismatch_cleans_up_witness :
  ∃ fs',
    IA.download_file MD5.hexdigest abc_session 4242 1 item_disk sample_file
      "dest/i/a.warc.gz"
      = (Py.Raise (Py.Exc "DownloadError" "md5 mismatch"), fs')
    ∧ fs' !! IA.temp_path_of 4242 "dest/i/a.warc.gz" = None
    ∧ fs' !! "dest/i/a.warc.gz" = None.
Proof.
  apply (checksum_mismatch_cleans_up MD5.hexdigest abc_session 4242 1 item_disk
           sample_file "dest/i/a.warc.gz" abc_response).
  - reflexivity.
  - reflexivity.
  - reflexivity.
  - by vm_compute.
  - vm_compute. reflexivity.
  - vm_compute. reflexivity.
  - by vm_compute.
Defined.

(** C1 (as amended). For a Completed result of cc-download.py
    ([FileDownloaded]) the size reported is the total that the response to
    the last request advertises, the file at the destination has exactly
    that many bytes, and the checksum reported is the MD5 of those bytes.
    For a Completed result of ia-download.py ([Download]) the size reported
    is the number of bytes received and written (no advertised size is
    read), the file at the destination holds exactly those bytes, and the
    checksum reported is their MD5, which is the checksum expected. *)
Theorem completed_size_and_checksum (md5_hex : list byte -> string)
    (urlopen : nat -> CC.Request -> Py.result CC.HTTPResponse)
    (session_get : string -> Py.result IA.Response) (pid elapsed : Z)
    (fs : FS.t) (path : string) (file : IA.File) (file_path : string) :
  (∀ p size time md5,
     CC.result (CC.download_warc md5_hex urlopen fs elapsed path)
       = CC.FileDownloaded p size time md5 →
     (∃ request len fin,
        last (CC.requests (CC.download_warc md5_hex urlopen fs elapsed path))
          = Some (request, len)
        ∧ urlopen (length (CC.requests (CC.download_warc md5_hex urlopen fs elapsed path)))
            request = Py.Return fin
        ∧ CC.get_content_length fin = Py.Return size)
     ∧ ∃ content,
         CC.disk (CC.download_warc md5_hex urlopen fs elapsed path) !! Py.basename path
           = Some (FS.File content)
         ∧ Z.of_nat (length content) = size
         ∧ md5 = md5_hex content)
  ∧ (∀ p size md5 time fs',
       IA.download_file md5_hex session_get pid elapsed fs file file_path
         = (Py.Return (IA.mkDownload p size md5 time), fs') →
       ∃ response content,
         session_get (IA.url file) = Py.Return response
         ∧ content = streamed (IA.content response)
         ∧ p = file_path
         ∧ fs' !! file_path = Some (FS.File content)
         ∧ Z.of_nat (length content) = size
         ∧ md5 = md5_hex content
         ∧ md5 = IA.md5 file).
Proof.
  split.
  - intros p size time md5 Hdone.
    apply download_warc_completed in Hdone as (_ & Hsize & Hfile & _). done.
  - intros p size md5 time fs' Hdone.
    apply download_file_completed in Hdone
      as (response & Hget & _ & _ & [= -> -> -> ->] & Hsum & Hfile & _).
    by exists response, (streamed (IA.content response)).
Qed.

(** The resumed transfer of the specification's scenario, and the transfer
    of [abc_file]. *)
Lemma completed_size_and_checksum_witness :
  (∃ content,
     CC.disk (CC.download_warc MD5.hexdigest resuming_server resumed_disk 1
                "crawl-data/a.warc.gz") !! "a.warc.gz" = Some (FS.File content)
     ∧ Z.of_nat (length content) = 1000%Z
     ∧ MD5.hexdigest (replicate 400 x61 ++ replicate 600 x62) = MD5.hexdigest content)
  ∧ (∃ response content,
       abc_session (IA.url abc_file) = Py.Return response
       ∧ content = streamed (IA.content response)
       ∧ "dest/i/abc.warc.gz" = "dest/i/abc.warc.gz"
       ∧ (<["dest/i/abc.warc.gz" := FS.File (String.list_byte_of_string "abc")]>
            item_disk : FS.t)
           !! "dest/i/abc.warc.gz" = Some (FS.File content)
       ∧ Z.of_nat (length content) = 3%Z
       ∧ "900150983cd24fb0d6963f7d28e17f72" = MD5.hexdigest content
       ∧ "900150983cd24fb0d6963f7d28e17f72" = IA.md5 abc_file).
Proof.
  pose proof (completed_size_and_checksum MD5.hexdigest resuming_server abc_session
                4242 1 resumed_disk "crawl-data/a.warc.gz" abc_file "dest/i/abc.warc.gz")
    as [Hcc _].
  pose proof (completed_size_and_checksum MD5.hexdigest resuming_server abc_session
                4242 1 item_disk "crawl-data/a.warc.gz" abc_file "dest/i/abc.warc.gz")
    as [_ Hia].
  split.
  - destruct (Hcc "crawl-data/a.warc.gz" 1000%Z 1%Z
                (MD5.hexdigest (replicate 400 x61 ++ replicate 600 x62)))
      as [_ Hfile]; [by vm_compute|]. exact Hfile.
  - apply (Hia "dest/i/abc.warc.gz" 3%Z "900150983cd24fb0d6963f7d28e17f72" 1%Z
             (<["dest/i/abc.warc.gz" := FS.File (String.list_byte_of_string "abc")]>
                item_disk)).
    vm_compute. reflexivity.
Defined.

(** C1 (as stated) fails: the transfer of [abc_file] ends with a
    [Download] of size 3, the three bytes received, although the response
    advertises 10. *)
Lemma download_size_is_not_advertised :
  IA.download_file MD5.hexdigest abc_session 4242 1 item_disk abc_file
    "dest/i/abc.warc.gz"
    = (Py.Return (IA.mkDownload "dest/i/abc.warc.gz" 3 "900150983cd24fb0d6963f7d28e17f72" 1),
       <["dest/i/abc.warc.gz" := FS.File (String.list_byte_of_string "abc")]> item_disk)
  ∧ advertised_total abc_response = Some 10%Z.
Proof. split; vm_compute; reflexivity. Qed.

(** The scenario of the specification: 400 bytes on disk, one request
    [bytes=400-], a file of 1000 bytes at the destination. *)
Example resumed_transfer_requests :
  map (λ s, (CC.range_header s.1, s.2))
    (CC.requests (CC.download_warc MD5.hexdigest resuming_server resumed_disk 1
                    "crawl-data/a.warc.gz"))
  = [("bytes=400-", 400%Z)].
Proof. vm_compute. reflexivity. Qed.

Example resumed_transfer_result :
  CC.result (CC.download_warc MD5.hexdigest resuming_server resumed_disk 1
               "crawl-data/a.warc.gz")
  = CC.FileDownloaded "crawl-data/a.warc.gz" 1000 1
      (MD5.hexdigest (replicate 400 x61 ++ replicate 600 x62)).
Proof. vm_compute. reflexivity. Qed.

(** ** Errors at the worker boundary *)

(** cc-download.py: the whole transfer is inside [try], also the opening of
    the temp file, so an error there comes back as a [DownloadError]. *)
Lemma cc_open_error_is_reported md5_hex urlopen fs elapsed path err :
  FS.path_exists fs (Py.basename path) = false →
  FS.open_append fs ("." +:+ Py.basename path) = Py.Raise err →
  CC.result (CC.download_warc md5_hex urlopen fs elapsed path)
    = CC.DownloadError path None elapsed (Py.exc_str err).
Proof.
  intros Habsent Hopen. unfold CC.download_warc. by rewrite Habsent, Hopen.
Qed.

(** ia-download.py: when the destination is absent the worker returns
    what [download_file] returns or raises, as a value. *)
Lemma worker_wraps_download md5_hex session_get pid elapsed fs fs1
    item file dest_dir check_md5 :
  FS.path_exists fs (Py.path_join (Py.path_join dest_dir item) (IA.name file)) = false →
  FS.makedirs fs (Py.path_join dest_dir item) = Py.Return fs1 →
  IA.worker_download_file md5_hex session_get pid elapsed fs
    ((item, file), dest_dir, check_md5)
  = match IA.download_file md5_hex session_get pid elapsed fs1 file
            (Py.path_join (Py.path_join dest_dir item) (IA.name file)) with
    | (Py.Return d, fs') => (Py.Return (item, file, IA.RetDownload d), fs')
    | (Py.Raise err, fs') => (Py.Return (item, file, IA.RetError err), fs')
    end.
Proof.
  intros Habsent Hdirs. unfold IA.worker_download_file.
  rewrite Habsent, andb_false_r.
  cbn [mret result_ret negb]. rewrite Habsent. cbn [negb]. by rewrite Hdirs.
Qed.

(** Without [--check-md5] the worker never raises: every error of the
    transfer is in the value it returns. *)
Lemma worker_without_check_returns md5_hex session_get pid elapsed fs
    item file dest_dir :
  ∃ retval fs',
    IA.worker_download_file md5_hex session_get pid elapsed fs
      ((item, file), dest_dir, false)
    = (Py.Return (item, file, retval), fs').
Proof.
  unfold IA.worker_download_file. cbn [andb mret result_ret].
  destruct (FS.path_exists fs _); cbn [negb]; [by eexists _, _|].
  destruct (FS.makedirs fs _) as [fs1|err]; [|by eexists _, _].
  destruct (IA.download_file _ _ _ _ _ _ _) as [[d|err] fs']; by eexists _, _.
Qed.

(** The checksum mismatch of C7 at the worker: the error is the value
    returned, and only the directory of the item is left on disk. *)
Example worker_reports_mismatch :
  IA.worker_download_file MD5.hexdigest abc_session 4242 1 ∅
    (("i", sample_file), "dest", false)
  = (Py.Return ("i", sample_file, IA.RetError (Py.Exc "DownloadError" "md5 mismatch")),
     {[ "dest/i" := FS.Dir ]}).
Proof. vm_compute. reflexivity. Qed.

(** C8 fails on the code. With [--check-md5], when the destination exists
    and cannot be read as a file, [compute_md5] raises outside of the [try]
    of [worker_download_file]: the exception leaves the worker, and in
    single-worker mode it ends the run before any row is written and before
    the next task is started. *)
Theorem check_md5_error_leaves_worker :
  IA.worker_download_file MD5.hexdigest abc_session 4242 1 blocked_disk
    (("i", sample_file), "dest", true)
  = (Py.Raise (Py.Exc "IsADirectoryError"
                 "[Errno 21] Is a directory: 'dest/i/a.warc.gz'"),
     blocked_disk)
  ∧ IA.main_fake_pool MD5.hexdigest abc_session 4242 1
      (λ _, "2024-01-01T00:00:00")
      [(("i", sample_file), "dest", true); (("i", abc_file), "dest", true)]
      blocked_disk
    = (([], IA.Uncaught (Py.Exc "IsADirectoryError"
                           "[Errno 21] Is a directory: 'dest/i/a.warc.gz'")),
       blocked_disk).
Proof. split; vm_compute; reflexivity. Qed.

(** The same two tasks without [--check-md5]: the first is found present,
    the second is downloaded, and the run exits with status 0. *)
Example run_without_check :
  (IA.main_fake_pool MD5.hexdigest abc_session 4242 1
     (λ _, "2024-01-01T00:00:00")
     [(("i", sample_file), "dest", false); (("i", abc_file), "dest", false)]
     blocked_disk).1
  = ([Csv.Row "2024-01-01T00:00:00" "i" "abc.warc.gz" (Some "dest/i/abc.warc.gz")
        (Some 3%Z) (Some 1%Z) (Some "900150983cd24fb0d6963f7d28e17f72") None],
     IA.SysExit 0).
Proof. vm_compute. reflexivity. Qed.

(** * Further properties *)

(** ** The listing of an item ([ia_get_files]) *)

Lemma fetch_sleeps get_files args_filter item :
  ∀ r1 r2 r3 r4 r5,
  get_files 1 item args_filter = r1 → get_files 2 item args_filter = r2 →
  get_files 3 item args_filter = r3 → get_files 4 item args_filter = r4 →
  get_files 5 item args_filter = r5 →
  (Listing.fetch get_files args_filter (seq 1 5) item []).2 `prefix_of` backoff
  ∧ (Listing.fetch get_files args_filter (seq 1 5) item []).1 ≠ Py.Return None.
Proof.
  intros r1 r2 r3 r4 r5 H1 H2 H3 H4 H5. unfold backoff. simpl.
  rewrite H1, H2, H3, H4, H5.
  destruct r1 as [f1|e1]; simpl; [split; [by eexists|done]|].
  destruct (Listing.is_connection_error e1); simpl; [|split; [by eexists|done]].
  destruct r2 as [f2|e2]; simpl; [split; [by eexists|done]|].
  destruct (Listing.is_connection_error e2); simpl; [|split; [by eexists|done]].
  destruct r3 as [f3|e3]; simpl; [split; [by eexists|done]|].
  destruct (Listing.is_connection_error e3); simpl; [|split; [by eexists|done]].
  destruct r4 as [f4|e4]; simpl; [split; [by eexists|done]|].
  destruct (Listing.is_connection_error e4); simpl; [|split; [by eexists|done]].
  destruct r5 as [f5|e5]; simpl; [split; [by eexists|done]|].
  destruct (Listing.is_connection_error e5); simpl; split; (by eexists) || done.
Qed.

(** X1. A cache hit is answered at once: the cached files, the cache
    as it was, no call and no sleep. On a miss, whatever the session
    answers, the seconds [ia_get_files] sleeps are the first waits of the
    schedule 4, 16, 64, 256: at most four waits, 340 seconds in all. *)
Theorem listing_sleeps_follow_backoff
    (get_files : nat -> string -> string -> Py.result (list IA.File))
    (args_filter : string) (cache : option (gmap string (list IA.File)))
    (item : string) (glob_pattern : option string) :
  match cache ≫= (λ c, c !! Listing.cache_key item glob_pattern) with
  | Some files =>
      Listing.ia_get_files get_files args_filter cache item glob_pattern
      = (Py.Return files, cache, [])
  | None =>
      (Listing.ia_get_files get_files args_filter cache item glob_pattern).2
        `prefix_of` backoff
  end.
Proof.
  unfold Listing.ia_get_files.
  destruct (cache ≫= _) as [files|]; [done|].
  destruct (fetch_sleeps get_files args_filter item _ _ _ _ _ eq_refl eq_refl
              eq_refl eq_refl eq_refl) as [Hprefix _].
  destruct (Listing.fetch _ _ _ _ _) as [[[response|]|err] slept]; done.
Qed.

Lemma fetch_first_answer get_files args_filter item k :
  1 ≤ k ≤ 5 →
  (∀ n, 1 ≤ n < k →
     answers_connection_error (get_files n item args_filter) = true) →
  answers_connection_error (get_files k item args_filter) = false ∨ k = 5 →
  Listing.fetch get_files args_filter (seq 1 5) item []
  = (Some <$> get_files k item args_filter, take (k - 1) backoff).
Proof.
  intros Hk Hbefore Hlast.
  assert (Herr : ∀ n, 1 ≤ n < k → ∃ err,
            get_files n item args_filter = Py.Raise err
            ∧ Listing.is_connection_error err = true).
  { intros n Hn. specialize (Hbefore n Hn).
    destruct (get_files n item args_filter) as [|err]; [done|]. by exists err. }
  assert (Hend : ∀ r : Py.result (list IA.File),
            answers_connection_error r = false →
            ∀ (rest : Py.exception → Py.result (option (list IA.File)) * list Z) slept,
            match r with
            | Py.Return response => (Py.Return (Some response), slept)
            | Py.Raise err =>
                if Listing.is_connection_error err then rest err
                else (Py.Raise err, slept)
            end = (Some <$> r, slept)).
  { intros [response|err] Hr rest slept; simpl in *; [done|]. by rewrite Hr. }
  unfold backoff.
  destruct k as [|[|[|[|[|[|k]]]]]]; try lia; simpl.
  - destruct Hlast as [Hlast|]; [|lia]. by apply Hend.
  - destruct (Herr 1) as (e1 & -> & ->); [lia|]. simpl.
    destruct Hlast as [Hlast|]; [|lia]. by apply Hend.
  - destruct (Herr 1) as (e1 & -> & ->); [lia|].
    destruct (Herr 2) as (e2 & -> & ->); [lia|]. simpl.
    destruct Hlast as [Hlast|]; [|lia]. by apply Hend.
  - destruct (Herr 1) as (e1 & -> & ->); [lia|].
    destruct (Herr 2) as (e2 & -> & ->); [lia|].
    destruct (Herr 3) as (e3 & -> & ->); [lia|]. simpl.
    destruct Hlast as [Hlast|]; [|lia]. by apply Hend.
  - destruct (Herr 1) as (e1 & -> & ->); [lia|].
    destruct (Herr 2) as (e2 & -> & ->); [lia|].
    destruct (Herr 3) as (e3 & -> & ->); [lia|].
    destruct (Herr 4) as (e4 & -> & ->); [lia|]. simpl.
    destruct (get_files 5 item args_filter) as [response|err]; [done|]. simpl.
    by destruct (Listing.is_connection_error err).
Qed.

(** X2. On a cache miss, when the calls before the [k]-th (1 to 5) fail
    with a connection error and the [k]-th does not, or is the fifth,
    [ia_get_files] answers what the [k]-th call answers, a list of files or
    the exception, after sleeping 4, 16, ... for [k - 1] turns; a list is
    stored in the cache under the key of the item and the pattern, an
    exception leaves the cache as it was. *)
Theorem listing_first_answer
    (get_files : nat -> string -> string -> Py.result (list IA.File))
    (args_filter : string) (cache : option (gmap string (list IA.File)))
    (item : string) (glob_pattern : option string) (k : nat) :
  cache ≫= (λ c, c !! Listing.cache_key item glob_pattern) = None →
  1 ≤ k ≤ 5 →
  (∀ n, 1 ≤ n < k →
     answers_connection_error (get_files n item args_filter) = true) →
  answers_connection_error (get_files k item args_filter) = false ∨ k = 5 →
  Listing.ia_get_files get_files args_filter cache item glob_pattern
  = (get_files k item args_filter,
     match get_files k item args_filter with
     | Py.Return files =>
         insert (Listing.cache_key item glob_pattern) files <$> cache
     | Py.Raise _ => cache
     end,
     take (k - 1) backoff).
Proof.
  intros Hmiss Hk Hbefore Hlast. unfold Listing.ia_get_files.
  rewrite Hmiss, (fetch_first_answer _ _ _ k) by done.
  by destruct (get_files k item args_filter).
Qed.

(** Two connection errors, then the files: the third call answers. *)
Lemma listing_first_answer_witness :
  Listing.ia_get_files flaky_listing "*.warc.gz" (Some ∅) "i" (Some "*.warc.gz")
  = (flaky_listing 3 "i" "*.warc.gz",
     match flaky_listing 3 "i" "*.warc.gz" with
     | Py.Return files =>
         insert (Listing.cache_key "i" (Some "*.warc.gz")) files <$> Some ∅
     | Py.Raise _ => Some ∅
     end,
     take (3 - 1) backoff).
Proof.
  apply (listing_first_answer flaky_listing "*.warc.gz" (Some ∅) "i"
           (Some "*.warc.gz") 3).
  - reflexivity.
  - lia.
  - intros [|[|[|n]]] Hn; (reflexivity || lia).
  - left. reflexivity.
Defined.

(** X3. Round trip through the cache: once [ia_get_files] has returned
    the files of an item with a cache in use, asking again with the cache
    it left returns the same files without sleeping, whatever the session
    would answer and whatever [args.filter] is by then. *)
Theorem listing_cache_round_trip
    (get_files get_files' : nat -> string -> string -> Py.result (list IA.File))
    (args_filter args_filter' : string) (c : gmap string (list IA.File))
    (item : string) (glob_pattern : option string)
    (files : list IA.File) (cache' : option (gmap string (list IA.File)))
    (slept : list Z) :
  Listing.ia_get_files get_files args_filter (Some c) item glob_pattern
    = (Py.Return files, cache', slept) →
  Listing.ia_get_files get_files' args_filter' cache' item glob_pattern
    = (Py.Return files, cache', []).
Proof.
  unfold Listing.ia_get_files. cbn [mbind option_bind].
  destruct (c !! Listing.cache_key item glob_pattern) as [cached|] eqn:Hhit.
  - intros [= <- <- <-]. cbn [mbind option_bind]. by rewrite Hhit.
  - destruct (Listing.fetch get_files _ _ _ _) as [[[response|]|err] slept'];
      intros [= <- <- <-]. cbn [mbind option_bind fmap option_fmap option_map].
    by rewrite lookup_insert_eq.
Qed.

(** The files cached by a first listing are returned when the session is
    dead and the filter has changed. *)
Lemma listing_cache_round_trip_witness :
  Listing.ia_get_files dead_listing "*.pdf"
    (Some {[ "i$*.warc.gz" := [abc_file] ]}) "i" (Some "*.warc.gz")
  = (Py.Return [abc_file], Some {[ "i$*.warc.gz" := [abc_file] ]}, []).
Proof.
  apply (listing_cache_round_trip flaky_listing dead_listing "*.warc.gz" "*.pdf"
           ∅ "i" (Some "*.warc.gz") [abc_file]
           (Some {[ "i$*.warc.gz" := [abc_file] ]}) [4; 16]%Z).
  vm_compute. reflexivity.
Defined.

(** X4. [ia_get_files] never caches a failure, and a success changes the
    cache at most at the key of the item and the pattern, where the files
    returned are then found. *)
Theorem listing_writes_its_key_only
    (get_files : nat -> string -> string -> Py.result (list IA.File))
    (args_filter : string) (cache : option (gmap string (list IA.File)))
    (item : string) (glob_pattern : option string) :
  match Listing.ia_get_files get_files args_filter cache item glob_pattern with
  | (Py.Raise _, cache', _) => cache' = cache
  | (Py.Return files, cache', _) =>
      cache' = None ∧ cache = None
      ∨ ∃ c c', cache = Some c ∧ cache' = Some c'
          ∧ c' !! Listing.cache_key item glob_pattern = Some files
          ∧ ∀ key, key ≠ Listing.cache_key item glob_pattern → c' !! key = c !! key
  end.
Proof.
  unfold Listing.ia_get_files.
  destruct cache as [c|]; cbn [mbind option_bind].
  - destruct (c !! Listing.cache_key item glob_pattern) as [cached|] eqn:Hhit.
    + right. by exists c, c.
    + destruct (Listing.fetch _ _ _ _ _) as [[[response|]|err] slept]; [|done..].
      right. eexists c, _. split; [done|]. split; [done|].
      split; [by rewrite lookup_insert_eq|].
      intros key Hne. by rewrite lookup_insert_ne.
  - destruct (Listing.fetch _ _ _ _ _) as [[[response|]|err] slept]; [|done..].
    by left.
Qed.

Example listing_after_two_connection_errors :
  Listing.ia_get_files flaky_listing "*.warc.gz" (Some ∅) "i" (Some "*.warc.gz")
  = (Py.Return [abc_file], Some {[ "i$*.warc.gz" := [abc_file] ]}, [4; 16]%Z).
Proof. vm_compute. reflexivity. Qed.

Example listing_gives_up :
  Listing.ia_get_files dead_listing "*.warc.gz" None "i" (Some "*.warc.gz")
  = (Py.Raise (Py.Exc "ConnectionError" "Connection aborted."), None,
     [4; 16; 64; 256]%Z).
Proof. vm_compute. reflexivity. Qed.

(** ** cc-download.py: the disk and the requests of a transfer *)

Section DiskOfResumableTransfer.

Context (md5_hex : list byte -> string).
Context (urlopen : nat -> CC.Request -> Py.result CC.HTTPResponse).

Lemma open_append_bytes fs temp fs1 content :
  FS.open_append fs temp = Py.Return (fs1, content) →
  content = temp_bytes fs temp
  ∧ fs !! temp ≠ Some FS.Dir
  ∧ ∀ bytes, <[temp := FS.File bytes]> fs1 = <[temp := FS.File bytes]> fs.
Proof.
  unfold FS.open_append, temp_bytes.
  destruct (fs !! temp) as [[bytes|]|] eqn:Hlook; intros Hopen; simplify_eq.
  - done.
  - split; [done|]. split; [done|]. intros bytes. by rewrite insert_insert_eq.
Qed.

(** The three ways [download_warc] can leave the disk. *)
Lemma download_warc_disk fs elapsed path :
  let o := CC.download_warc md5_hex urlopen fs elapsed path in
  let dest := Py.basename path in
  let temp := "." +:+ Py.basename path in
  (FS.path_exists fs dest = true ∧ CC.result o = CC.FileExists path ∧ CC.disk o = fs)
  ∨ (FS.path_exists fs dest = false ∧ fs !! temp = Some FS.Dir
     ∧ CC.disk o = fs ∧ ∃ msg, CC.result o = CC.DownloadError path None elapsed msg)
  ∨ (FS.path_exists fs dest = false ∧ fs !! temp ≠ Some FS.Dir
     ∧ ∃ more,
         (∃ total,
            CC.result o = CC.FileDownloaded path total elapsed
                            (md5_hex (temp_bytes fs temp ++ more))
            ∧ Z.of_nat (length (temp_bytes fs temp ++ more)) = total
            ∧ CC.disk o = <[dest := FS.File (temp_bytes fs temp ++ more)]> (delete temp fs))
         ∨ (∃ size msg,
              CC.result o = CC.DownloadError path size elapsed msg
              ∧ CC.disk o = <[temp := FS.File (temp_bytes fs temp ++ more)]> fs)).
Proof.
  cbv zeta.
  destruct (FS.path_exists fs (Py.basename path)) eqn:Habsent.
  { left. unfold CC.download_warc. by rewrite Habsent. }
  right.
  destruct (FS.open_append fs ("." +:+ Py.basename path))
    as [[fs1 content]|err] eqn:Hopen.
  2:{ left. apply open_append_fails in Hopen as Hdir.
      unfold CC.download_warc. rewrite Habsent, Hopen. simpl.
      split; [done|]. split; [done|]. split; [done|]. by eexists. }
  right. rewrite (download_warc_open _ _ _ _ _ _ _ Habsent Hopen).
  apply open_append_bytes in Hopen as (-> & Hfile & Hinsert).
  split; [done|]. split; [done|].
  destruct (CC.attempts _ _ _ _ _) as [exit st] eqn:Hrun.
  apply attempts_spec in Hrun as ([_ Hdig] & [more Hmore] & new & _ & _ & _ & _ & Hexit);
    [|apply resumed_sound].
  simpl in Hmore. rewrite Hmore, Hinsert. exists more.
  destruct exit as [total|err|]; simpl.
  - left. exists total. destruct Hexit as (_ & Hlen & _).
    pose proof (hidden_name_differs (Py.basename path)) as Hne.
    unfold FS.rename. rewrite lookup_insert_eq, lookup_insert_ne by done.
    unfold FS.path_exists in Habsent.
    destruct (fs !! Py.basename path); [done|]. simpl.
    rewrite Hdig, Hmore, <- Hlen, Hmore, delete_insert_eq. done.
  - right. by eexists _, _.
  - right. by eexists _, _.
Qed.

End DiskOfResumableTransfer.

(** X5. [download_warc] touches two names only: any path other than the
    destination [basename(path)] and the temp name [.basename(path)] is
    after the call what it was before. *)
Theorem download_warc_touches_two_names (md5_hex : list byte -> string)
    (urlopen : nat -> CC.Request -> Py.result CC.HTTPResponse)
    (fs : FS.t) (elapsed : Z) (path other : string) :
  other ≠ Py.basename path →
  other ≠ "." +:+ Py.basename path →
  CC.disk (CC.download_warc md5_hex urlopen fs elapsed path) !! other = fs !! other.
Proof.
  intros Hdest Htemp.
  destruct (download_warc_disk md5_hex urlopen fs elapsed path)
    as [(_ & _ & ->) | [(_ & _ & -> & _) | (_ & _ & more & Hcase)]]; [done..|].
  destruct Hcase as [(total & _ & _ & ->) | (size & msg & _ & ->)].
  - by rewrite lookup_insert_ne, lookup_delete_ne.
  - by rewrite lookup_insert_ne.
Qed.

(** A file beside the one downloaded. *)
Lemma download_warc_touches_two_names_witness :
  CC.disk (CC.download_warc MD5.hexdigest resuming_server resumed_disk 1
             "crawl-data/a.warc.gz") !! "b.warc.gz"
  = resumed_disk !! "b.warc.gz".
Proof.
  apply (download_warc_touches_two_names MD5.hexdigest resuming_server
           resumed_disk 1 "crawl-data/a.warc.gz" "b.warc.gz").
  - by vm_compute.
  - by vm_compute.
Defined.




(** X19. A call of [download_warc] sends at most [MAX_ATTEMPTS] = 10
    requests, and none when the destination exists: it then returns
    [FileExists] and leaves the disk as it is. *)
Theorem download_warc_request_budget (md5_hex : list byte -> string)
    (urlopen : nat -> CC.Request -> Py.result CC.HTTPResponse)
    (fs : FS.t) (elapsed : Z) (path : string) :
  length (CC.requests (CC.download_warc md5_hex urlopen fs elapsed path))
    ≤ CC.MAX_ATTEMPTS
  ∧ (FS.path_exists fs (Py.basename path) = true →
     CC.download_warc md5_hex urlopen fs elapsed path
     = {| CC.result := CC.FileExists path; CC.disk := fs; CC.requests := [] |}).
Proof.
  split; [apply download_warc_requests|].
  intros Hexists. unfold CC.download_warc. by rewrite Hexists.
Qed.

Section MoreResumableTransfer.

Context (md5_hex : list byte -> string).
Context (urlopen : nat -> CC.Request -> Py.result CC.HTTPResponse).

Lemma attempts_after_truncated path k r attempt st :
  sound st →
  always_truncated urlopen path k attempt
    (Z.of_nat (length (CC.data (CC.ftemp st)))) = true →
  ∃ st_k,
    CC.attempts urlopen path (k + r) attempt st
      = CC.attempts urlopen path r (attempt + k) st_k
    ∧ sound st_k
    ∧ Z.of_nat (length (CC.data (CC.ftemp st_k)))
      = offset_after urlopen path k attempt
          (Z.of_nat (length (CC.data (CC.ftemp st))))
    ∧ (∃ more, CC.data (CC.ftemp st_k) = CC.data (CC.ftemp st) ++ more)
    ∧ length (CC.sent st_k) = length (CC.sent st) + k.
Proof.
  revert attempt st. induction k as [|k IH]; intros attempt st [Hend Hdig] Htrunc.
  { exists st. rewrite Nat.add_0_r. simpl. split_and!; try done; try lia.
    exists []. by rewrite app_nil_r. }
  simpl in Htrunc |- *. unfold attempt_verdict, CC.tell. rewrite Hend.
  destruct (urlopen _ _) as [fin|e]; [|done].
  destruct (CC.get_content_length fin) as [total|e]; [|done].
  rewrite read_body_reads by done.
  destruct (read_error (CC.body fin)) as [e|]; [done|].
  apply andb_prop in Htrunc as [Hless Htrunc]. simpl.
  rewrite length_app, Nat2Z.inj_add, Hless.
  set (st1 := {| CC.ftemp := _; CC.digest := _; CC.size := Some total; CC.sent := _ |}).
  destruct (IH (S attempt) st1) as (st_k & Hrun & Hsound & Hlen & [more Hmore] & Hsent).
  { split; [|simpl; by rewrite Hdig]. unfold at_end. simpl. by rewrite length_app. }
  { simpl. by rewrite length_app, Nat2Z.inj_add. }
  exists st_k. rewrite Hrun, Hlen, Hsent. simpl.
  rewrite !length_app, Nat2Z.inj_add. simpl.
  replace (S (attempt + k)) with (attempt + S k) by lia.
  split_and!; try done; try lia.
  exists (received (CC.body fin) ++ more). rewrite Hmore. simpl. by rewrite app_assoc.
Qed.

Lemma attempt_decides path r attempt st :
  sound st →
  match attempt_verdict urlopen path (S attempt)
          (Z.of_nat (length (CC.data (CC.ftemp st)))) with
  | Fails err =>
      ∃ st', CC.attempts urlopen path (S r) attempt st = (CC.Raised err, st')
             ∧ length (CC.sent st') = length (CC.sent st) + 1
             ∧ ∃ more, CC.data (CC.ftemp st') = CC.data (CC.ftemp st) ++ more
  | Completes total =>
      ∃ st', CC.attempts urlopen path (S r) attempt st = (CC.Complete total, st')
             ∧ length (CC.sent st') = length (CC.sent st) + 1
  | Truncated _ => True
  end.
Proof.
  intros [Hend Hdig]. simpl. unfold attempt_verdict, CC.tell. rewrite Hend.
  destruct (urlopen _ _) as [fin|e].
  2:{ eexists. split; [done|]. simpl. rewrite length_app. simpl.
      split; [done|]. exists []. by rewrite app_nil_r. }
  destruct (CC.get_content_length fin) as [total|e].
  2:{ destruct (read_error (CC.body fin)); eexists; (split; [done|]); simpl;
        rewrite length_app; simpl; (split; [done|]); exists []; by rewrite app_nil_r. }
  rewrite read_body_reads by done.
  destruct (read_error (CC.body fin)) as [e|].
  { eexists. split; [done|]. simpl. rewrite length_app. simpl.
    split; [done|]. by eexists. }
  simpl. rewrite length_app, Nat2Z.inj_add.
  destruct (Z.ltb _ total); [done|].
  destruct (Z.gtb _ total).
  - eexists. split; [done|]. simpl. rewrite !length_app. simpl.
    split; [done|]. by eexists.
  - eexists. split; [done|]. simpl. by rewrite length_app.
Qed.

(** [k] attempts cut short and one that completes. *)
Lemma attempts_complete path k r attempt st total :
  sound st →
  always_truncated urlopen path k attempt
    (Z.of_nat (length (CC.data (CC.ftemp st)))) = true →
  attempt_verdict urlopen path (S (attempt + k))
    (offset_after urlopen path k attempt
       (Z.of_nat (length (CC.data (CC.ftemp st))))) = Completes total →
  ∃ st',
    CC.attempts urlopen path (k + S r) attempt st = (CC.Complete total, st')
    ∧ sound st'
    ∧ CC.data (CC.ftemp st')
      = CC.data (CC.ftemp st)
        ++ received_after urlopen path (S k) attempt
             (Z.of_nat (length (CC.data (CC.ftemp st))))
    ∧ Z.of_nat (length (CC.data (CC.ftemp st'))) = total
    ∧ length (CC.sent st') = length (CC.sent st) + S k.
Proof.
  revert attempt st. induction k as [|k IH]; intros attempt st [Hend Hdig] Htrunc Hdone.
  - rewrite Nat.add_0_r in Hdone. cbn [offset_after] in Hdone.
    cbn [Nat.add CC.attempts received_after].
    unfold attempt_verdict in Hdone. unfold attempt_bytes, CC.tell. rewrite Hend.
    destruct (urlopen _ _) as [fin|e]; [|done].
    destruct (CC.get_content_length fin) as [total'|e]; [|done].
    rewrite read_body_reads by done.
    destruct (read_error (CC.body fin)) as [e|]; [done|].
    cbn [CC.ftemp CC.digest CC.size CC.sent CC.data CC.pos].
    rewrite length_app, Nat2Z.inj_add.
    destruct (Z.ltb _ total') eqn:Hless; [done|].
    destruct (Z.gtb _ total') eqn:Hmore; [done|].
    injection Hdone as <-.
    eexists. split; [done|]. cbn [CC.ftemp CC.digest CC.size CC.sent CC.data CC.pos].
    rewrite app_nil_r, !length_app, Nat2Z.inj_add. simpl.
    split_and!; [split | done | | lia].
    + unfold at_end. simpl. by rewrite length_app.
    + simpl. by rewrite Hdig.
    + apply Z.ltb_ge in Hless. rewrite Z.gtb_ltb in Hmore.
      apply Z.ltb_ge in Hmore. lia.
  - cbn [always_truncated] in Htrunc. cbn [offset_after] in Hdone.
    cbn [Nat.add CC.attempts received_after].
    unfold attempt_verdict at 2 in Hdone. unfold attempt_bytes, CC.tell. rewrite Hend.
    destruct (urlopen _ _) as [fin|e]; [|done].
    destruct (CC.get_content_length fin) as [total'|e]; [|done].
    rewrite read_body_reads by done.
    destruct (read_error (CC.body fin)) as [e|]; [done|].
    apply andb_prop in Htrunc as [Hless Htrunc].
    cbn [CC.ftemp CC.digest CC.size CC.sent CC.data CC.pos].
    rewrite length_app, Nat2Z.inj_add, Hless. rewrite Hless in Hdone.
    set (st1 := {| CC.ftemp := _; CC.digest := _; CC.size := Some total'; CC.sent := _ |}).
    destruct (IH (S attempt) st1) as (st' & Hrun & Hsound & Hdata & Hlen & Hsent).
    { split; [|simpl; by rewrite Hdig]. unfold at_end. simpl. by rewrite length_app. }
    { simpl. by rewrite length_app, Nat2Z.inj_add. }
    { simpl. rewrite length_app, Nat2Z.inj_add.
      by replace (S (S (attempt + k))) with (S (attempt + S k)) by lia. }
    exists st'. split_and!; [exact Hrun | done | | done | ].
    + rewrite Hdata. unfold st1. cbn [CC.ftemp CC.data].
      by rewrite length_app, Nat2Z.inj_add, <- app_assoc.
    + rewrite Hsent. unfold st1. cbn [CC.sent]. rewrite length_app. simpl. lia.
Qed.

End MoreResumableTransfer.

Section AttemptsOfResumableTransfer.

Context (md5_hex : list byte -> string).
Context (urlopen : nat -> CC.Request -> Py.result CC.HTTPResponse).

(** The attempts of a transfer whose first [k] attempts are cut short,
    up to the attempt after them. *)
Lemma attempts_reach path k content :
  k < CC.MAX_ATTEMPTS →
  always_truncated urlopen path k 0 (Z.of_nat (length content)) = true →
  ∃ st_k,
    CC.attempts urlopen path CC.MAX_ATTEMPTS 0 (resumed content)
      = CC.attempts urlopen path (S (CC.MAX_ATTEMPTS - S k)) k st_k
    ∧ sound st_k
    ∧ Z.of_nat (length (CC.data (CC.ftemp st_k)))
      = offset_after urlopen path k 0 (Z.of_nat (length content))
    ∧ length (CC.sent st_k) = k.
Proof.
  intros Hk Htrunc.
  destruct (attempts_after_truncated urlopen path k (S (CC.MAX_ATTEMPTS - S k)) 0
              (resumed content) (resumed_sound content) Htrunc)
    as (st_k & Hrun & Hsound & Hlen & _ & Hsent).
  exists st_k. replace (k + S (CC.MAX_ATTEMPTS - S k)) with CC.MAX_ATTEMPTS in Hrun by lia.
  done.
Qed.

End AttemptsOfResumableTransfer.

(** X8. No error is retried: when [k < MAX_ATTEMPTS] attempts are cut
    short and the next one fails ([urlopen] raises, no size is advertised,
    the reading fails, or more bytes arrive than the total), the transfer
    ends there with a [DownloadError] carrying that error, after exactly
    [k + 1] requests. *)
Theorem failed_attempt_ends_transfer (md5_hex : list byte -> string)
    (urlopen : nat -> CC.Request -> Py.result CC.HTTPResponse)
    (fs : FS.t) (elapsed : Z) (path : string) (k : nat) (err : Py.exception) :
  FS.path_exists fs (Py.basename path) = false →
  fs !! ("." +:+ Py.basename path) ≠ Some FS.Dir →
  k < CC.MAX_ATTEMPTS →
  always_truncated urlopen path k 0
    (FS.file_length fs ("." +:+ Py.basename path)) = true →
  attempt_verdict urlopen path (S k)
    (offset_after urlopen path k 0 (FS.file_length fs ("." +:+ Py.basename path)))
    = Fails err →
  (∃ size,
     CC.result (CC.download_warc md5_hex urlopen fs elapsed path)
       = CC.DownloadError path size elapsed (Py.exc_str err))
  ∧ length (CC.requests (CC.download_warc md5_hex urlopen fs elapsed path)) = S k.
Proof.
  intros Habsent Hfile Hk Htrunc Hfails.
  destruct (FS.open_append fs ("." +:+ Py.basename path)) as [[fs1 content]|e] eqn:Hopen.
  2:{ by apply open_append_fails in Hopen. }
  rewrite (download_warc_open _ _ _ _ _ _ _ Habsent Hopen).
  apply open_append_content in Hopen as [Hcontent _].
  rewrite <- Hcontent in Htrunc, Hfails.
  destruct (attempts_reach urlopen path k content Hk Htrunc)
    as (st_k & -> & Hsound & Hlen & Hsent).
  pose proof (attempt_decides urlopen path (CC.MAX_ATTEMPTS - S k) k st_k Hsound)
    as Hstep.
  rewrite Hlen, Hfails in Hstep. destruct Hstep as (st' & -> & Hsent' & _).
  simpl. split; [by eexists|lia].
Qed.

(** Two attempts cut short, then a refused connection: three requests. *)
Lemma failed_attempt_ends_transfer_witness :
  (∃ size,
     CC.result (CC.download_warc MD5.hexdigest failing_server ∅ 1 "crawl-data/a.warc.gz")
       = CC.DownloadError "crawl-data/a.warc.gz" size 1
           "<urlopen error [Errno 111] Connection refused>")
  ∧ length (CC.requests (CC.download_warc MD5.hexdigest failing_server ∅ 1
                           "crawl-data/a.warc.gz")) = 3.
Proof.
  apply (failed_attempt_ends_transfer MD5.hexdigest failing_server ∅ 1
           "crawl-data/a.warc.gz" 2
           (Py.Exc "URLError" "<urlopen error [Errno 111] Connection refused>")).
  - reflexivity.
  - by vm_compute.
  - unfold CC.MAX_ATTEMPTS. lia.
  - vm_compute. reflexivity.
  - vm_compute. reflexivity.
Defined.

(** X9. When [k < MAX_ATTEMPTS] attempts are cut short and the next one
    brings the temp file to the advertised total, the transfer ends there
    with [FileDownloaded] after exactly [k + 1] requests: the size is the
    total, the destination holds the bytes of the temp file followed by
    those the [k + 1] attempts received, and the checksum is their MD5. *)
Theorem completing_attempt_ends_transfer (md5_hex : list byte -> string)
    (urlopen : nat -> CC.Request -> Py.result CC.HTTPResponse)
    (fs : FS.t) (elapsed : Z) (path : string) (k : nat) (total : Z) :
  FS.path_exists fs (Py.basename path) = false →
  fs !! ("." +:+ Py.basename path) ≠ Some FS.Dir →
  k < CC.MAX_ATTEMPTS →
  always_truncated urlopen path k 0
    (FS.file_length fs ("." +:+ Py.basename path)) = true →
  attempt_verdict urlopen path (S k)
    (offset_after urlopen path k 0 (FS.file_length fs ("." +:+ Py.basename path)))
    = Completes total →
  CC.result (CC.download_warc md5_hex urlopen fs elapsed path)
    = CC.FileDownloaded path total elapsed
        (md5_hex (temp_bytes fs ("." +:+ Py.basename path)
                  ++ received_after urlopen path (S k) 0
                       (FS.file_length fs ("." +:+ Py.basename path))))
  ∧ CC.disk (CC.download_warc md5_hex urlopen fs elapsed path) !! Py.basename path
    = Some (FS.File (temp_bytes fs ("." +:+ Py.basename path)
                     ++ received_after urlopen path (S k) 0
                          (FS.file_length fs ("." +:+ Py.basename path))))
  ∧ Z.of_nat (length (temp_bytes fs ("." +:+ Py.basename path)
                      ++ received_after urlopen path (S k) 0
                           (FS.file_length fs ("." +:+ Py.basename path))))
    = total
  ∧ length (CC.requests (CC.download_warc md5_hex urlopen fs elapsed path)) = S k.
Proof.
  intros Habsent Hfile Hk Htrunc Hdone.
  destruct (FS.open_append fs ("." +:+ Py.basename path))
    as [[fs1 content]|e] eqn:Hopen.
  2:{ by apply open_append_fails in Hopen. }
  rewrite (download_warc_open _ _ _ _ _ _ _ Habsent Hopen).
  destruct (open_append_content _ _ _ _ Hopen) as [Hcontent Hother].
  apply open_append_bytes in Hopen as (Hbytes & _ & _).
  rewrite <- Hbytes, <- Hcontent. rewrite <- Hcontent in Htrunc, Hdone.
  destruct (attempts_complete urlopen path k (CC.MAX_ATTEMPTS - S k) 0
              (resumed content) total (resumed_sound content) Htrunc Hdone)
    as (st' & Hrun & [_ Hdig] & Hdata & Hlen & Hsent).
  replace (k + S (CC.MAX_ATTEMPTS - S k)) with CC.MAX_ATTEMPTS in Hrun by lia.
  rewrite Hrun. simpl in Hdata, Hsent.
  pose proof (hidden_name_differs (Py.basename path)) as Hne.
  unfold FS.rename. rewrite lookup_insert_eq, lookup_insert_ne by done.
  rewrite Hother by done. unfold FS.path_exists in Habsent.
  destruct (fs !! Py.basename path); [done|]. simpl.
  rewrite lookup_insert_eq, Hdig, Hdata, <- Hlen, Hdata. done.
Qed.

(** Four bytes of ten, then the other six: two requests. *)
Lemma completing_attempt_ends_transfer_witness :
  CC.result (CC.download_warc MD5.hexdigest two_step_server ∅ 1 "crawl-data/a.warc.gz")
    = CC.FileDownloaded "crawl-data/a.warc.gz" 10 1
        (MD5.hexdigest
           (temp_bytes ∅ ("." +:+ Py.basename "crawl-data/a.warc.gz")
            ++ received_after two_step_server "crawl-data/a.warc.gz" 2 0
                 (FS.file_length ∅ ("." +:+ Py.basename "crawl-data/a.warc.gz"))))
  ∧ CC.disk (CC.download_warc MD5.hexdigest two_step_server ∅ 1 "crawl-data/a.warc.gz")
      !! Py.basename "crawl-data/a.warc.gz"
    = Some (FS.File
              (temp_bytes ∅ ("." +:+ Py.basename "crawl-data/a.warc.gz")
               ++ received_after two_step_server "crawl-data/a.warc.gz" 2 0
                    (FS.file_length ∅ ("." +:+ Py.basename "crawl-data/a.warc.gz"))))
  ∧ Z.of_nat
      (length
         (temp_bytes ∅ ("." +:+ Py.basename "crawl-data/a.warc.gz")
          ++ received_after two_step_server "crawl-data/a.warc.gz" 2 0
               (FS.file_length ∅ ("." +:+ Py.basename "crawl-data/a.warc.gz"))))
    = 10%Z
  ∧ length (CC.requests (CC.download_warc MD5.hexdigest two_step_server ∅ 1
                           "crawl-data/a.warc.gz")) = 2.
Proof.
  apply (completing_attempt_ends_transfer MD5.hexdigest two_step_server ∅ 1
           "crawl-data/a.warc.gz" 1 10%Z).
  - reflexivity.
  - by vm_compute.
  - unfold CC.MAX_ATTEMPTS. lia.
  - vm_compute. reflexivity.
  - vm_compute. reflexivity.
Defined.

(** The bytes of that transfer: the four of the first answer, then the six
    of the second. *)
Example two_step_bytes :
  temp_bytes ∅ ".a.warc.gz" ++ received_after two_step_server "crawl-data/a.warc.gz" 2 0 0
  = replicate 4 x61 ++ replicate 6 x62.
Proof. vm_compute. reflexivity. Qed.

Example two_step_transfer_disk :
  CC.disk (CC.download_warc MD5.hexdigest two_step_server ∅ 1 "crawl-data/a.warc.gz")
  = {[ "a.warc.gz" := FS.File (replicate 4 x61 ++ replicate 6 x62) ]}.
Proof. vm_compute. reflexivity. Qed.

(** ** ia-download.py: the transfer and the worker *)

(** X10. What [download_file] does when neither the destination nor the
    temp path is a directory. An exception of [session.get] and a response
    that is not ok leave the disk untouched. When there is no directory to
    hold the temp file, [open] raises [FileNotFoundError], or
    [NotADirectoryError] where a file stands in its place. An exception
    while streaming and a checksum mismatch are raised as well. In these
    three cases no temp file is left and nothing else has changed. A body
    with the expected checksum ends as the file at the destination, with
    its size and checksum in the [Download], and no temp file. *)
Theorem download_file_outcome (md5_hex : list byte -> string)
    (session_get : string -> Py.result IA.Response) (pid elapsed : Z)
    (fs : FS.t) (file : IA.File) (file_path : string) :
  fs !! file_path ≠ Some FS.Dir →
  fs !! IA.temp_path_of pid file_path ≠ Some FS.Dir →
  IA.download_file md5_hex session_get pid elapsed fs file file_path
  = match session_get (IA.url file) with
    | Py.Raise err => (Py.Raise err, fs)
    | Py.Return response =>
        if negb (IA.ok response) then
          (Py.Raise (Py.Exc "DownloadError" (IA.reason response)), fs)
        else
          match FS.dir_above fs file_path with
          | None =>
              (Py.Raise (FS.os_error "FileNotFoundError"
                           "[Errno 2] No such file or directory"
                           (IA.temp_path_of pid file_path)),
               delete (IA.temp_path_of pid file_path) fs)
          | Some (FS.File _) =>
              (Py.Raise (FS.os_error "NotADirectoryError" "[Errno 20] Not a directory"
                           (IA.temp_path_of pid file_path)),
               delete (IA.temp_path_of pid file_path) fs)
          | Some FS.Dir =>
              match stream_error (IA.content response) with
              | Some err => (Py.Raise err, delete (IA.temp_path_of pid file_path) fs)
              | None =>
                  if String.eqb (md5_hex (streamed (IA.content response)))
                       (IA.md5 file)
                  then
                    (Py.Return
                       (IA.mkDownload file_path
                          (Z.of_nat (length (streamed (IA.content response))))
                          (md5_hex (streamed (IA.content response))) elapsed),
                     <[file_path := FS.File (streamed (IA.content response))]>
                       (delete (IA.temp_path_of pid file_path) fs))
                  else
                    (Py.Raise (Py.Exc "DownloadError" "md5 mismatch"),
                     delete (IA.temp_path_of pid file_path) fs)
              end
          end
    end.
Proof.
  intros Hdest Htemp.
  pose proof (temp_path_differs pid file_path) as Hne.
  pose proof (temp_path_dir_above fs pid file_path) as Habove.
  unfold IA.download_file.
  set (temp_path := IA.temp_path_of pid file_path) in *.
  destruct (session_get (IA.url file)) as [response|err]; [|done].
  destruct (IA.ok response); simpl; [|done].
  assert (Hgone : ∀ err : Py.exception,
    (let '(cleanup, fs1) :=
       if FS.path_exists fs temp_path then
         match FS.unlink fs temp_path with
         | Py.Raise e => (Py.Raise e, fs)
         | Py.Return fs1 => (Py.Return (), fs1)
         end
       else (Py.Return (), fs) in
     match cleanup, @Py.Raise (Z * list byte) err with
     | Py.Raise e, _ => (Py.Raise e, fs1)
     | Py.Return _, Py.Raise e => (Py.Raise e, fs1)
     | Py.Return _, Py.Return (size, digest) =>
         (Py.Return (IA.mkDownload file_path size (md5_hex digest) elapsed), fs1)
     end) = (Py.Raise err, delete temp_path fs)).
  { intros err. unfold FS.path_exists, FS.unlink.
    destruct (fs !! temp_path) as [[bytes|]|] eqn:Hlook; [done|done|].
    by rewrite delete_id. }
  unfold FS.open_write. rewrite Habove.
  destruct (FS.dir_above fs file_path) as [[bytes|]|]; [apply Hgone| |apply Hgone].
  assert (Hopen : match fs !! temp_path with
                  | Some FS.Dir =>
                      Py.Raise (FS.os_error "IsADirectoryError"
                                  "[Errno 21] Is a directory" temp_path)
                  | _ => Py.Return (<[temp_path := FS.File []]> fs)
                  end = Py.Return (<[temp_path := FS.File []]> fs)).
  { by destruct (fs !! temp_path) as [[other|]|]. }
  rewrite Hopen, write_chunks_spec. simpl. rewrite insert_insert_eq.
  destruct (stream_error (IA.content response)) as [err|].
  { unfold FS.path_exists, FS.unlink. rewrite lookup_insert_eq.
    by rewrite delete_insert_eq. }
  destruct (String.eqb _ (IA.md5 file)); simpl.
  - unfold FS.rename. rewrite lookup_insert_eq, lookup_insert_ne by done.
    assert (Hmoved :
      FS.path_exists
        (<[file_path := FS.File (streamed (IA.content response))]>
           (delete temp_path
              (<[temp_path := FS.File (streamed (IA.content response))]> fs)))
        temp_path = false).
    { unfold FS.path_exists.
      by rewrite lookup_insert_ne, lookup_delete_eq by done. }
    destruct (fs !! file_path) as [[other|]|]; [|done|];
      rewrite Hmoved, delete_insert_eq; done.
  - unfold FS.path_exists, FS.unlink. rewrite lookup_insert_eq.
    by rewrite delete_insert_eq.
Qed.

(** The transfer of [abc_file] into the directory of the item. *)
Lemma download_file_outcome_witness :
  IA.download_file MD5.hexdigest abc_session 4242 1 item_disk abc_file
    "dest/i/abc.warc.gz"
  = (Py.Return (IA.mkDownload "dest/i/abc.warc.gz" 3
                  "900150983cd24fb0d6963f7d28e17f72" 1),
     <["dest/i/abc.warc.gz" := FS.File (String.list_byte_of_string "abc")]> item_disk).
Proof.
  pose proof (download_file_outcome MD5.hexdigest abc_session 4242 1 item_disk
                abc_file "dest/i/abc.warc.gz") as Hrun.
  rewrite Hrun.
  - vm_compute. reflexivity.
  - by vm_compute.
  - by vm_compute.
Defined.

(** The same transfer on an empty disk, where the directory is missing,
    and that of a file listed under a directory of the item, which the
    worker does not make. *)
Example download_without_directory :
  IA.download_file MD5.hexdigest abc_session 4242 1 ∅ abc_file "dest/i/abc.warc.gz"
  = (Py.Raise (Py.Exc "FileNotFoundError"
                 "[Errno 2] No such file or directory: 'dest/i/.abc.warc.gz~4242'"),
     ∅).
Proof. vm_compute. reflexivity. Qed.

Example nested_name_is_not_downloaded :
  IA.worker_download_file MD5.hexdigest abc_session 4242 1 ∅
    (("i", nested_file), "dest", false)
  = (Py.Return ("i", nested_file,
                IA.RetError
                  (Py.Exc "FileNotFoundError"
                     "[Errno 2] No such file or directory: 'dest/i/sub/.abc.warc.gz~4242'")),
     {[ "dest/i" := FS.Dir ]}).
Proof. vm_compute. reflexivity. Qed.

(** X11. [compute_md5] returns the MD5 of the whole file, however the
    reads of [buffering] bytes cut it, and raises when the path is a
    directory or does not exist. *)
Theorem compute_md5_whole_file (md5_hex : list byte -> string)
    (fs : FS.t) (path : string) :
  IA.compute_md5 md5_hex fs path
  = match fs !! path with
    | Some (FS.File content) => Py.Return (md5_hex content)
    | Some FS.Dir =>
        Py.Raise (FS.os_error "IsADirectoryError" "[Errno 21] Is a directory" path)
    | None =>
        Py.Raise (FS.os_error "FileNotFoundError"
                    "[Errno 2] No such file or directory" path)
    end.
Proof.
  destruct (fs !! path) as [[content|]|] eqn:Hlook.
  - by apply compute_md5_reads.
  - unfold IA.compute_md5, FS.open_read. by rewrite Hlook.
  - unfold IA.compute_md5, FS.open_read. by rewrite Hlook.
Qed.

(** X12. A file that is present and need not be checked, or whose
    checksum is the one expected, is kept: the worker returns [None]
    without changing the disk, whatever the session would answer. *)
Theorem worker_keeps_verified_file (md5_hex : list byte -> string)
    (session_get : string -> Py.result IA.Response) (pid elapsed : Z)
    (fs : FS.t) (item : string) (file : IA.File) (dest_dir : string)
    (check_md5 : bool) (content : list byte) :
  fs !! Py.path_join (Py.path_join dest_dir item) (IA.name file)
    = Some (FS.File content) →
  check_md5 = false ∨ md5_hex content = IA.md5 file →
  IA.worker_download_file md5_hex session_get pid elapsed fs
    ((item, file), dest_dir, check_md5)
  = (Py.Return (item, file, IA.RetNone), fs).
Proof.
  intros Hfile Hsum. unfold IA.worker_download_file.
  assert (Hexists : FS.path_exists fs
            (Py.path_join (Py.path_join dest_dir item) (IA.name file)) = true).
  { unfold FS.path_exists. by rewrite Hfile. }
  rewrite Hexists.
  destruct check_md5; cbn [andb mret result_ret].
  - destruct Hsum as [|Hsum]; [done|].
    rewrite (compute_md5_reads _ _ _ _ Hfile).
    cbn [mbind result_bind Py.bind]. rewrite Hsum, String.eqb_refl.
    cbn [negb mret result_ret]. by rewrite Hexists.
  - by rewrite Hexists.
Qed.

(** A verified file, with a session that cannot be reached. *)
Lemma worker_keeps_verified_file_witness :
  IA.worker_download_file MD5.hexdigest dead_session 4242 1 verified_disk
    (("i", abc_file), "dest", true)
  = (Py.Return ("i", abc_file, IA.RetNone), verified_disk).
Proof.
  apply (worker_keeps_verified_file MD5.hexdigest dead_session 4242 1 verified_disk
           "i" abc_file "dest" true (String.list_byte_of_string "abc")).
  - vm_compute. reflexivity.
  - right. vm_compute. reflexivity.
Defined.

(** X13. With [--check-md5] a file whose checksum is not the one
    expected is deleted and downloaded again: the worker does what it does
    without the check on the disk from which the file has been removed. *)
Theorem worker_replaces_corrupt_file (md5_hex : list byte -> string)
    (session_get : string -> Py.result IA.Response) (pid elapsed : Z)
    (fs : FS.t) (item : string) (file : IA.File) (dest_dir : string)
    (content : list byte) :
  fs !! Py.path_join (Py.path_join dest_dir item) (IA.name file)
    = Some (FS.File content) →
  md5_hex content ≠ IA.md5 file →
  IA.worker_download_file md5_hex session_get pid elapsed fs
    ((item, file), dest_dir, true)
  = IA.worker_download_file md5_hex session_get pid elapsed
      (delete (Py.path_join (Py.path_join dest_dir item) (IA.name file)) fs)
      ((item, file), dest_dir, false).
Proof.
  intros Hfile Hsum. unfold IA.worker_download_file.
  set (file_path := Py.path_join (Py.path_join dest_dir item) (IA.name file)) in *.
  unfold FS.path_exists at 1. rewrite Hfile. cbn [andb].
  rewrite (compute_md5_reads _ _ _ _ Hfile).
  cbn [mbind result_bind Py.bind].
  apply String.eqb_neq in Hsum. rewrite Hsum. cbn [negb].
  unfold FS.unlink. rewrite Hfile. cbn [andb mret result_ret]. reflexivity.
Qed.

(** A file with the wrong bytes. *)
Lemma worker_replaces_corrupt_file_witness :
  IA.worker_download_file MD5.hexdigest abc_session 4242 1 corrupt_disk
    (("i", abc_file), "dest", true)
  = IA.worker_download_file MD5.hexdigest abc_session 4242 1
      (delete (Py.path_join (Py.path_join "dest" "i") (IA.name abc_file)) corrupt_disk)
      (("i", abc_file), "dest", false).
Proof.
  apply (worker_replaces_corrupt_file MD5.hexdigest abc_session 4242 1 corrupt_disk
           "i" abc_file "dest" (String.list_byte_of_string "abd")).
  - vm_compute. reflexivity.
  - by vm_compute.
Defined.

Example corrupt_file_is_replaced :
  IA.worker_download_file MD5.hexdigest abc_session 4242 1 corrupt_disk
    (("i", abc_file), "dest", true)
  = (Py.Return ("i", abc_file,
                IA.RetDownload (IA.mkDownload "dest/i/abc.warc.gz" 3
                                  "900150983cd24fb0d6963f7d28e17f72" 1)),
     verified_disk).
Proof. vm_compute. reflexivity. Qed.

(** ** The result loops *)








(** The row of a failure whose [str(err)] is empty has its last five cells
    empty. *)
Example row_of_an_empty_error :
  map Csv.cells
    (IA.main (λ _, "2024-01-01T00:00:00")
       [("i", abc_file, IA.RetError (Py.Exc "DownloadError" ""))]).1
  = [["2024-01-01T00:00:00"; "i"; "abc.warc.gz"; ""; ""; ""; ""; ""]].
Proof. reflexivity. Qed.

Lemma main_loop_counters now n results t t' raised :
  IA.main_loop now n results t = (t', raised) →
  IA.consecutive_errors t ≤ 100 →
  IA.consecutive_errors t ≤ IA.total_errors t →
  IA.consecutive_errors t' ≤ IA.total_errors t'
  ∧ IA.total_errors t' ≤ IA.total_errors t + failures results
  ∧ match raised with
    | None => IA.consecutive_errors t' ≤ 100
    | Some _ => IA.consecutive_errors t' = 101
    end.
Proof.
  revert n t. induction results as [|[[item file] retval] results IH];
    intros n t; simpl.
  - intros [= <- <-] ??. simpl. lia.
  - destruct retval as [|[path size md5 time]|e]; simpl;
      unfold IA.check_consecutive, is_failed; simpl.
    + intros Hrun ??. by apply IH in Hrun.
    + intros Hrun ??. apply IH in Hrun as (? & ? & ?); simpl in *; [|lia..].
      split_and!; [lia | lia | done].
    + destruct (Nat.ltb _ _) eqn:Hover.
      * apply Nat.ltb_lt in Hover. intros [= <- <-] ??. simpl. lia.
      * apply Nat.ltb_ge in Hover. intros Hrun ??.
        apply IH in Hrun as (? & ? & ?); simpl in *; [|lia..].
        split_and!; [lia | lia | done].
Qed.

(** X16. The counters of the loop of ia-download.py: the consecutive
    errors never exceed the total errors, the total errors never exceed the
    failures among the results, and the consecutive errors are at most 100
    when the loop ends without raising and exactly 101 when it raises. *)
Theorem breaker_counter_bounds (now : nat -> string)
    (results : list (string * IA.File * IA.retval)) :
  IA.consecutive_errors (IA.main_loop now 0 results IA.start).1
    ≤ IA.total_errors (IA.main_loop now 0 results IA.start).1
  ∧ IA.total_errors (IA.main_loop now 0 results IA.start).1 ≤ failures results
  ∧ match (IA.main_loop now 0 results IA.start).2 with
    | None => IA.consecutive_errors (IA.main_loop now 0 results IA.start).1 ≤ 100
    | Some _ => IA.consecutive_errors (IA.main_loop now 0 results IA.start).1 = 101
    end.
Proof.
  destruct (IA.main_loop now 0 results IA.start) as [t raised] eqn:Hrun.
  apply main_loop_counters in Hrun as (? & ? & ?); simpl in *; [|lia..].
  split_and!; [lia | lia | done].
Qed.

Lemma fake_pool_loop_composes md5_hex session_get pid elapsed now n entries fs t :
  (IA.fake_pool_loop md5_hex session_get pid elapsed now n entries fs t).1
  = let '(results, raised) :=
      workers_results md5_hex session_get pid elapsed entries fs in
    match IA.main_loop now n results t with
    | (t', Some err) => (t', Some err)
    | (t', None) => (t', raised)
    end.
Proof.
  revert n fs t. induction entries as [|entry entries IH]; intros n fs t; simpl.
  { done. }
  destruct (IA.worker_download_file _ _ _ _ fs entry) as [[r|err] fs']; [|done].
  specialize (IH (S n) fs').
  destruct (workers_results _ _ _ _ entries fs') as [results raised]. simpl.
  destruct (IA.loop_body (now n) t r) as [t1 [err|]]; [done|]. apply IH.
Qed.

(** X17. Single-worker mode: the rows and the ending of a run through
    [FakePool] are those of the result loop on the results the workers
    return, one entry after the other on the disk the previous one left;
    when a worker raises, the run ends with its exception unless the
    circuit breaker has ended it before. *)
Theorem single_worker_run_is_the_result_loop (md5_hex : list byte -> string)
    (session_get : string -> Py.result IA.Response) (pid elapsed : Z)
    (now : nat -> string)
    (entries : list ((string * IA.File) * string * bool)) (fs : FS.t) :
  (IA.main_fake_pool md5_hex session_get pid elapsed now entries fs).1
  = match workers_results md5_hex session_get pid elapsed entries fs with
    | (results, None) => IA.main now results
    | (results, Some err) =>
        match IA.main now results with
        | (rows, IA.Uncaught breaker) => (rows, IA.Uncaught breaker)
        | (rows, IA.SysExit _) => (rows, IA.Uncaught err)
        end
    end.
Proof.
  unfold IA.main_fake_pool, IA.main.
  pose proof (fake_pool_loop_composes md5_hex session_get pid elapsed now 0
                entries fs IA.start) as Hloop.
  destruct (IA.fake_pool_loop _ _ _ _ _ _ _ _ _) as [[t raised] fs'].
  simpl in Hloop |- *.
  destruct (workers_results _ _ _ _ entries fs) as [results [err|]];
    destruct (IA.main_loop now 0 results IA.start) as [t' [breaker|]];
    by simplify_eq.
Qed.

(** ** Temporary names *)

(** X18. The temporary name of ia-download.py is in the directory of
    the destination, its file name is [.<name>~<pid>], and it is never the
    destination itself; the temporary name of cc-download.py, [.<name>],
    is a plain file name of the working directory and is not the
    destination either. *)
Theorem temp_names_are_hidden_siblings (pid : Z) (path : string) :
  Py.path_split (IA.temp_path_of pid path)
    = ((Py.path_split path).1,
       "." +:+ Py.basename path +:+ "~" +:+ Py.str_int pid)
  ∧ IA.temp_path_of pid path ≠ path
  ∧ "." +:+ Py.basename path ≠ Py.basename path
  ∧ Py.path_split ("." +:+ Py.basename path) = ("", "." +:+ Py.basename path).
Proof.
  split; [|split; [apply temp_path_differs|split; [apply hidden_name_differs|]]].
  - unfold IA.temp_path_of, Py.basename.
    pose proof (path_split_head path) as Hhead.
    pose proof (split_tail_no_slash path) as Htail.
    unfold Py.path_split in *.
    destruct (Py.split_at_last_slash path) as [head tail]. simpl in *.
    apply path_split_join; [done| |done].
    by rewrite !no_slash_app, Htail, str_int_no_slash.
  - unfold Py.path_split. rewrite split_no_slash; [done|].
    rewrite no_slash_app. unfold Py.basename. by rewrite split_tail_no_slash.
Qed.
